(** * vscode-codeql: the data-extensions editor view, the generated
      RemoteRepositorySchema message, and the database manager

    A shallow embedding of the parts of the extension that the
    specification talks about, together with the properties proved
    about them.

    - [Js]: the few JavaScript notions the code relies on (string
      suffix test, truthiness of an optional string, [Uri]).
    - [Proto]: [proto-generated/remote-repository-schema_pb.ts].
    - [Editor]: the [DataExtensionsEditorView] class.  Calls into the
      host editor, the CLI server, the query runner and the file system
      are answered by a [Host] record and recorded in a trace.
    - [SelectedQuery], [SourceArchive], [Databases]: functions that are
      exercised by the test suites but whose implementation is not part
      of the sources at hand; they are modelled from the specification. *)

From stdpp Require Import gmap strings list pretty.

Set Implicit Arguments.
Open Scope string_scope.
Open Scope list_scope.

(** ** JavaScript notions *)

Module Js.

(** [s.endsWith(suffix)]. *)
Definition endsWith (s suffix : string) : bool :=
  let n := String.length s in
  let m := String.length suffix in
  if decide (m ≤ n)%nat
  then bool_decide (String.substring (n - m) m s = suffix)
  else false.

(** [s.startsWith(p)]. *)
Definition startsWith (s p : string) : bool := String.prefix p s.

(** Truthiness of a value of type [string | undefined]: [undefined]
    and the empty string are falsy. *)
Definition truthy (v : option string) : bool :=
  match v with
  | Some s => negb (bool_decide (s = ""))
  | None => false
  end.

(** A JavaScript [Error], identified by its message. *)
Definition Error := string.

(** How a call ends: it returns (a promise resolves) or it throws (a
    promise rejects). *)
Inductive Outcome (A : Type) :=
| Returned (a : A)
| Thrown (e : Error).
Arguments Returned {A} a.
Arguments Thrown {A} e.

Definition Outcome_map {A B} (f : A -> B) (o : Outcome A) : Outcome B :=
  match o with
  | Returned a => Returned (f a)
  | Thrown e => Thrown e
  end.

(** The fields of a [vscode.Uri] that the code and its tests read. *)
Record Uri := mkUri {
  scheme : string;
  authority : string;
  path : string;
  query : string;
  fragment : string;
  fsPath : string;
}.

(** [Uri.file(p)] for a normalised POSIX path. *)
Definition Uri_file (p : string) : Uri :=
  {| scheme := "file"; authority := ""; path := p;
     query := ""; fragment := ""; fsPath := p |}.

(** [uri.toString(true)]: no percent-encoding; query and fragment are
    printed only when present. *)
Definition Uri_toString (u : Uri) : string :=
  scheme u +:+ "://" +:+ authority u +:+ path u
    +:+ (if bool_decide (query u = "") then "" else "?" +:+ query u)
    +:+ (if bool_decide (fragment u = "") then "" else "#" +:+ fragment u).

#[global] Instance Uri_eq_dec : EqDecision Uri.
Proof. solve_decision. Defined.

End Js.

(** ** The generated protocol-buffer message *)

Module Proto.

(** [ScalarType.STRING] of the protobuf runtime, as the generated
    comment in the field list gives it. *)
Definition ScalarType_STRING : Z := 9.

(** [FieldInfo] of the protobuf runtime, for a scalar field. *)
Module FieldInfo.
Record t := {
  no : Z;
  name : string;
  kind : string;
  T : Z;
}.
End FieldInfo.

Record RemoteRepositorySchema := {
  owner : string;
  name : string;
}.

(** [PartialMessage<RemoteRepositorySchema>]: every field optional. *)
Record PartialRemoteRepositorySchema := {
  partial_owner : option string;
  partial_name : option string;
}.

(** [proto3.util.initPartial(data, target)]: the fields present in
    [data] overwrite those of [target]; without [data] the target is
    left as it is. *)
Definition initPartial (data : option PartialRemoteRepositorySchema)
    (target : RemoteRepositorySchema) : RemoteRepositorySchema :=
  match data with
  | None => target
  | Some d =>
      {| owner := default (owner target) (partial_owner d);
         name := default (name target) (partial_name d) |}
  end.

(** The field initialisers [owner = ""; name = ""] run first, then the
    constructor body. *)
Definition new_RemoteRepositorySchema
    (data : option PartialRemoteRepositorySchema) : RemoteRepositorySchema :=
  initPartial data {| owner := ""; name := "" |}.

Definition typeName : string := "docs.RemoteRepositorySchema".

Definition fields : list FieldInfo.t :=
  [ {| FieldInfo.no := 1; FieldInfo.name := "owner";
       FieldInfo.kind := "scalar"; FieldInfo.T := 9 (* ScalarType.STRING *) |};
    {| FieldInfo.no := 2; FieldInfo.name := "name";
       FieldInfo.kind := "scalar"; FieldInfo.T := 9 (* ScalarType.STRING *) |} ].

(** Reading a declared field of an instance by its declared name. *)
Definition get_field (m : RemoteRepositorySchema) (f : string) : option string :=
  if bool_decide (f = "owner") then Some (owner m)
  else if bool_decide (f = "name") then Some (name m)
  else None.

End Proto.

(** ** The data-extensions editor view *)

Module Editor.
Import Js.

(** *** Data *)

(** [ProgressUpdate] of [../progress]. *)
Record ProgressUpdate := {
  step : Z;
  maxStep : Z;
  message : string;
}.

(** [FromDataExtensionsEditorMessage]: what the web view sends.  Only
    the tag [t] is inspected. *)
Record FromDataExtensionsEditorMessage := { msg_t : string }.

(** The qlpacks of a database, as [qlpackOfDatabase] resolves them. *)
Record QlPacksForLanguage := {
  dbschemePack : string;
  dbschemePackIsLibraryPack : bool;
  queryPack : option string;
}.

Record DatabaseItem := {
  databaseUri : Uri;
  language : string;
}.

Record QueryOutputDir := {
  bqrsPath : string;
  logPath : string;
}.

(** What [queryRunner.createQueryRun] hands back. *)
Record CoreQueryRun := { queryRun_outputDir : QueryOutputDir }.

Record CoreCompletedQuery := {
  resultType : Z;
  outputDir : QueryOutputDir;
}.

Record BqrsColumn := { column_name : string; column_kind : string }.

Record BqrsResultSetSchema := {
  name : string;
  rows : Z;
  columns : list BqrsColumn;
}.

(** [BQRSInfo]; the field ["result-sets"] is [result_sets]. *)
Record BQRSInfo := { result_sets : list BqrsResultSetSchema }.

(** The value handed to js-yaml's [dump].  Objects keep their keys in
    insertion order. *)
#[local] Unset Elimination Schemes.
Inductive YamlValue :=
| YString (s : string)
| YSeq (items : list YamlValue)
| YMap (entries : list (string * YamlValue)).
#[local] Set Elimination Schemes.

Section View.

(** Result types of [./bqrs], not part of the sources at hand. *)
Variables ExternalApiUsage DecodedBqrsChunk : Type.

(** [ToDataExtensionsEditorMessage]: what the view posts to the panel. *)
Inductive ToDataExtensionsEditorMessage :=
| ShowProgressMessage (step maxStep : Z) (message : string)
| SetExternalApiUsagesMessage (externalApiUsages : list ExternalApiUsage).

(** The tag [t] of a posted message. *)
Definition t (m : ToDataExtensionsEditorMessage) : string :=
  match m with
  | ShowProgressMessage _ _ _ => "showProgress"
  | SetExternalApiUsagesMessage _ => "setExternalApiUsages"
  end.

(** Everything the view does to the outside world, in order. *)
Inductive Event :=
| EvPostMessage (m : ToDataExtensionsEditorMessage)
| EvLog (line : string)
| EvShowAndLogException (message : string)
| EvSuperOnWebViewLoaded
| EvQlpackOfDatabase (db : DatabaseItem)
| EvFile (postfix : string)
| EvWriteFile (file data encoding : string)
| EvResolveQueriesInSuite (suite : string) (additionalPacks : list string)
| EvCreateQueryRun (dbPath : string) (queryPath : option string)
    (generateEvalLog : bool) (additionalPacks : list string)
    (queryStorageDir : string)
| EvEvaluate (run : CoreQueryRun) (logPath : string)
| EvBqrsInfo (bqrsPath : string)
| EvBqrsDecode (bqrsPath resultSet : string).

(** The answers of the outside world: [qlpackOfDatabase], tmp-promise's
    [file], fs-extra's [writeFile], js-yaml's [dump], the CLI server and
    the query runner.  A call that is awaited, and [createQueryRun], may
    fail; [evaluate] reports progress any number of times before it
    settles.  [getOnDiskWorkspaceFolders()] gives the same folders both
    times it is read during a run. *)
Record Host := {
  qlpackOfDatabase : DatabaseItem -> Outcome QlPacksForLanguage;
  file : string -> Outcome string;
  writeFile : string -> string -> string -> Outcome unit;
  dump : YamlValue -> string;
  getOnDiskWorkspaceFolders : list string;
  resolveQueriesInSuite : string -> list string -> Outcome (list string);
  createQueryRun : string -> option string -> bool -> list string ->
                   string -> Outcome CoreQueryRun;
  evaluate : CoreQueryRun -> list ProgressUpdate * Outcome CoreCompletedQuery;
  bqrsInfo : string -> Outcome BQRSInfo;
  bqrsDecode : string -> string -> Outcome DecodedBqrsChunk;
  decodeBqrsToExternalApiUsages :
    DecodedBqrsChunk -> list ExternalApiUsage;
}.

(** *** Effects: a trace of events and a result or an exception *)

Definition M (A : Type) : Type := (list Event * Outcome A)%type.

Definition ret {A} (a : A) : M A := ([], Returned a).

Definition throw {A} (e : Error) : M A := ([], Thrown e).

Definition bind {A B} (m : M A) (k : A -> M B) : M B :=
  match m with
  | (tr, Returned a) => let (tr', r) := k a in (tr ++ tr', r)
  | (tr, Thrown e) => (tr, Thrown e)
  end.

(** [try { m } catch (err) { h err }]. *)
Definition try_catch {A} (m : M A) (h : Error -> M A) : M A :=
  match m with
  | (tr, Thrown e) => let (tr', r) := h e in (tr ++ tr', r)
  | returned => returned
  end.

Definition emit (e : Event) : M unit := ([e], Returned tt).

(** A call to the outside world: recorded, then answered. *)
Definition call {A} (e : Event) (answer : Outcome A) : M A := ([e], answer).

Definition trace {A} (m : M A) : list Event := fst m.
Definition outcome {A} (m : M A) : Outcome A := snd m.

(** *** Observations on a trace *)

(** The usages carried by the ["setExternalApiUsages"] messages that
    were posted, in order. *)
Definition resultsPosted (tr : list Event) : list (list ExternalApiUsage) :=
  omap (fun e => match e with
                 | EvPostMessage (SetExternalApiUsagesMessage u) => Some u
                 | _ => None
                 end) tr.

(** The files written, with their contents and encoding. *)
Definition filesWritten (tr : list Event) : list (string * string * string) :=
  omap (fun e => match e with
                 | EvWriteFile f d enc => Some (f, d, enc)
                 | _ => None
                 end) tr.

(** Whether [queryRunner.createQueryRun] was called. *)
Definition createsQueryRun (tr : list Event) : bool :=
  existsb (fun e => match e with
                    | EvCreateQueryRun _ _ _ _ _ => true
                    | _ => false
                    end) tr.

(** The events that post a ["showProgress"] message. *)
Definition isProgress (e : Event) : Prop :=
  exists s m msg, e = EvPostMessage (ShowProgressMessage s m msg).

(** Whether a query was evaluated. *)
Definition evaluatesQuery (tr : list Event) : bool :=
  existsb (fun e => match e with
                    | EvEvaluate _ _ => true
                    | _ => false
                    end) tr.

#[local] Instance M_ret : MRet M := @ret.
#[local] Instance M_bind : MBind M := fun A B k m => bind m k.

(** *** The class [DataExtensionsEditorView] *)

Variable host : Host.

(** The constructor's [databaseItem] and [queryStorageDir]. *)
Variable databaseItem : DatabaseItem.
Variable queryStorageDir : string.

(** Modelled from the spec: [postMessage] of [AbstractWebview], which is
    not among the sources.  The view talks to its panel by message
    passing: the panel receives the message. *)
Definition postMessage (m : ToDataExtensionsEditorMessage) : M unit :=
  emit (EvPostMessage m).

(** [void extLogger.log(line)]: the line goes to the extension log; the
    call is not awaited. *)
Definition log (line : string) : M unit := emit (EvLog line).

(** [maxStep ?? update.maxStep]. *)
Definition showProgress (update : ProgressUpdate) (maxStep' : option Z) : M unit :=
  postMessage
    (ShowProgressMessage (step update)
       (default (maxStep update) maxStep')
       (message update)).

Definition clearProgress : M unit :=
  showProgress {| step := 0; maxStep := 0; message := "" |} None.

Definition getResults (bqrsPath : string) : M (option DecodedBqrsChunk) :=
  bqrsInfo ← call (EvBqrsInfo bqrsPath) (bqrsInfo host bqrsPath);
  if negb (bool_decide (length (result_sets bqrsInfo) = 1%nat)) then
    log ("Expected exactly one result set, got "
           +:+ pretty (length (result_sets bqrsInfo)));;
    ret None
  else
    match result_sets bqrsInfo !! 0%nat with
    | None => throw "Cannot read properties of undefined (reading 'name')"
    | Some resultSet =>
        showProgress {| message := "Decoding results";
                        step := 1200; maxStep := 1500 |} None;;
        chunk ← call (EvBqrsDecode bqrsPath (name resultSet))
                      (bqrsDecode host bqrsPath (name resultSet));
        ret (Some chunk)
    end.

(** One element of the suite: what the loop body pushes. *)
Definition suiteEntry (qlpack : string) : YamlValue :=
  YMap [ ("from", YString qlpack);
         ("queries", YString ".");
         ("include",
           YMap [ ("id", YString (language databaseItem
                                    +:+ "/telemetry/fetch-external-apis")) ]) ].

(** [packsToSearch]: the dbscheme pack, then the query pack when
    [qlpacks.queryPack] is truthy. *)
Definition packsToSearch (qlpacks : QlPacksForLanguage) : list string :=
  let packsToSearch := [dbschemePack qlpacks] in
  if truthy (queryPack qlpacks)
  then packsToSearch ++ option_list (queryPack qlpacks)
  else packsToSearch.

(** [suiteYaml]: the [for ... of] loop pushes one entry per pack. *)
Definition suiteYaml (qlpacks : QlPacksForLanguage) : list YamlValue :=
  fold_left (fun suite qlpack => suite ++ [suiteEntry qlpack])
            (packsToSearch qlpacks) [].

(** [queryRun.evaluate(progress, token, logger)] with the progress
    callback [(update) => this.showProgress(update, 1500)]: every
    update the run reports is shown before the run settles. *)
Definition evaluateQuery (queryRun : CoreQueryRun) : M CoreCompletedQuery :=
  emit (EvEvaluate queryRun (logPath (queryRun_outputDir queryRun)));;
  (flat_map (fun update => trace (showProgress update (Some 1500%Z)))
            (fst (evaluate host queryRun)),
   snd (evaluate host queryRun)).

(** The arguments of [createQueryRun] that are the literal [undefined]
    (quick-evaluation position, extension packs, templates, query info)
    are not recorded. *)
Definition runQuery : M (option CoreCompletedQuery) :=
  qlpacks ← call (EvQlpackOfDatabase databaseItem)
                  (qlpackOfDatabase host databaseItem);
  suiteFile ← call (EvFile ".qls") (file host ".qls");
  let data := dump host (YSeq (suiteYaml qlpacks)) in
  call (EvWriteFile suiteFile data "utf8")
       (writeFile host suiteFile data "utf8");;
  queries ← call (EvResolveQueriesInSuite suiteFile
                     (getOnDiskWorkspaceFolders host))
                  (resolveQueriesInSuite host suiteFile
                     (getOnDiskWorkspaceFolders host));
  if negb (bool_decide (length queries = 1%nat)) then
    log ("Expected exactly one query, got " +:+ pretty (length queries));;
    ret None
  else
    let query := queries !! 0%nat in
    let dbPath := fsPath (databaseUri databaseItem) in
    queryRun ← call (EvCreateQueryRun dbPath query false
                        (getOnDiskWorkspaceFolders host) queryStorageDir)
                     (createQueryRun host dbPath query false
                        (getOnDiskWorkspaceFolders host) queryStorageDir);
    completed ← evaluateQuery queryRun;
    ret (Some completed).

(** [getErrorMessage(err)] for an [Error]. *)
Definition getErrorMessage (err : Error) : string := err.

(** [queryResult] and [bqrsChunk] are objects when they are defined, so
    [!queryResult] and [!bqrsChunk] hold exactly for [undefined]. *)
Definition loadExternalApiUsages : M unit :=
  try_catch
    (queryResult ← runQuery;
     match queryResult with
     | None => clearProgress
     | Some queryResult =>
         showProgress {| message := "Loading results";
                         step := 1100; maxStep := 1500 |} None;;
         let bqrsPath := bqrsPath (outputDir queryResult) in
         bqrsChunk ← getResults bqrsPath;
         match bqrsChunk with
         | None => clearProgress
         | Some bqrsChunk =>
             showProgress {| message := "Finalizing results";
                             step := 1450; maxStep := 1500 |} None;;
             let externalApiUsages :=
               decodeBqrsToExternalApiUsages host bqrsChunk in
             postMessage (SetExternalApiUsagesMessage externalApiUsages);;
             clearProgress
         end
     end)
    (fun err =>
       emit (EvShowAndLogException
               ("Failed to load external APi usages: "
                  +:+ getErrorMessage err))).

(** [super.onWebViewLoaded()] of [AbstractWebview], which is not among
    the sources, is recorded as an event; then the load. *)
Definition onWebViewLoaded : M unit :=
  emit EvSuperOnWebViewLoaded;;
  loadExternalApiUsages.

Definition onMessage (msg : FromDataExtensionsEditorMessage) : M unit :=
  if bool_decide (msg_t msg = "viewLoaded") then
    onWebViewLoaded
  else
    throw "Unexpected message type".

End View.

Arguments ShowProgressMessage {ExternalApiUsage} step maxStep message.
Arguments EvLog {ExternalApiUsage} line.
Arguments EvShowAndLogException {ExternalApiUsage} message.
Arguments EvSuperOnWebViewLoaded {ExternalApiUsage}.
Arguments EvQlpackOfDatabase {ExternalApiUsage} db.
Arguments EvFile {ExternalApiUsage} postfix.
Arguments EvWriteFile {ExternalApiUsage} file data encoding.
Arguments EvResolveQueriesInSuite {ExternalApiUsage} suite additionalPacks.
Arguments EvCreateQueryRun {ExternalApiUsage} dbPath queryPath
  generateEvalLog additionalPacks queryStorageDir.
Arguments EvEvaluate {ExternalApiUsage} run logPath.
Arguments EvBqrsInfo {ExternalApiUsage} bqrsPath.
Arguments EvBqrsDecode {ExternalApiUsage} bqrsPath resultSet.
Arguments showProgress {ExternalApiUsage} update maxStep'.
Arguments clearProgress {ExternalApiUsage}.
Arguments log {ExternalApiUsage} line.
Arguments isProgress {ExternalApiUsage} e.
Arguments bind : simpl never.
Arguments ret {ExternalApiUsage A} a.
Arguments throw {ExternalApiUsage A} e.

End Editor.

(** ** Determining the selected query *)

Module SelectedQuery.
Import Js.

Section Selection.

(** The position selected in the active editor, used for quick
    evaluation. *)
Variable Position : Type.
Variable selectedPosition : Position.

Record SelectedQuery := {
  queryPath : string;
  quickEvalPosition : option Position;
}.

(** Modelled from the spec: [determineSelectedQuery] of
    [run-queries-shared], of which only the test suite is at hand.
    A normal run accepts [.ql] files only; a quick evaluation accepts
    [.ql] and [.qll] files and carries the selected position. *)
Definition determineSelectedQuery (uri : Uri) (quickEval : bool)
    : Outcome SelectedQuery :=
  if quickEval then
    if endsWith (path uri) ".ql" || endsWith (path uri) ".qll" then
      Returned {| queryPath := fsPath uri;
                  quickEvalPosition := Some selectedPosition |}
    else
      Thrown "The selected resource is not a CodeQL file"
  else
    if endsWith (path uri) ".ql" then
      Returned {| queryPath := fsPath uri; quickEvalPosition := None |}
    else
      Thrown "The selected resource is not a CodeQL query file".

End Selection.

End SelectedQuery.

(** ** Finding the source archive of a database *)

Module SourceArchive.
Import Js.

(** [path.join(dir, name)] for a directory without a trailing slash
    and a relative name. *)
Definition path_join (dir name : string) : string := dir +:+ "/" +:+ name.

Definition relativePaths : list string := ["src"; "output/src_archive"].

Section Disk.

(** The paths that exist on disk. *)
Variable disk : gset string.

Definition pathExists (p : string) : bool := bool_decide (p ∈ disk).

(** Modelled from the spec: [findSourceArchive] of [databases], of
    which only the test suite is at hand.  The relative paths are
    tried in order, the zip archive of each before the folder. *)
Fixpoint findIn (databasePath : string) (names : list string) : option Uri :=
  match names with
  | [] => None
  | name :: rest =>
      let basePath := path_join databasePath name in
      let zipPath := basePath +:+ ".zip" in
      if pathExists zipPath then Some (Uri_file zipPath)
      else if pathExists basePath then Some (Uri_file basePath)
      else findIn databasePath rest
  end.

Definition findSourceArchive (databasePath : string) : option Uri :=
  findIn databasePath relativePaths.

End Disk.

(** The candidate locations in their order of priority: for each
    relative path the zip archive, then the folder. *)
Definition candidates (databasePath : string) : list string :=
  flat_map (fun name => [ path_join databasePath name +:+ ".zip";
                          path_join databasePath name ])
           relativePaths.

End SourceArchive.

(** ** The database manager *)

Module Databases.
Import Js.

Record FullDatabaseOptions := {
  ignoreSourceArchive : bool;
  dateAdded : option Z;
  displayName : option string;
  language : option string;
}.

(** A [DatabaseItemImpl]: its location and its options. *)
Record DatabaseItem := {
  databaseUri : Uri;
  options : FullDatabaseOptions;
}.

(** Modelled from the spec: the setter of [item.name] of
    [DatabaseItemImpl], which is not among the sources; renaming shows
    up as [displayName] in the persisted options. *)
Definition set_name (newName : string) (item : DatabaseItem) : DatabaseItem :=
  {| databaseUri := databaseUri item;
     options :=
       {| ignoreSourceArchive := ignoreSourceArchive (options item);
          dateAdded := dateAdded (options item);
          displayName := Some newName;
          language := language (options item) |} |}.

(** Modelled from the spec: the getter of [item.name], for an item
    that has a display name. *)
Definition name (item : DatabaseItem) : option string :=
  displayName (options item).

(** One entry of the persisted list. *)
Record PersistedDatabaseItem := {
  uri : string;
  persisted_options : FullDatabaseOptions;
}.

Definition toPersisted (item : DatabaseItem) : PersistedDatabaseItem :=
  {| uri := Uri_toString (databaseUri item);
     persisted_options := options item |}.

Inductive DatabaseEventKind := Add | Remove | Rename.

(** Database items are objects: the manager's list, its callers and
    the tree view hold references to the same item. *)
Definition ref := nat.

Record DatabaseChangedEvent := {
  kind : DatabaseEventKind;
  item : option ref;
}.

Record State := {
  heap : gmap ref DatabaseItem;
  databaseItems : list ref;
  workspaceState : gmap string (list PersistedDatabaseItem);
  fired : list DatabaseChangedEvent;
  workspaceFolders : list Uri;
  storagePath : option string;
  disk : gset string;
}.

Definition with_heap (h : gmap ref DatabaseItem) (st : State) : State :=
  {| heap := h; databaseItems := databaseItems st;
     workspaceState := workspaceState st; fired := fired st;
     workspaceFolders := workspaceFolders st;
     storagePath := storagePath st; disk := disk st |}.

Definition with_databaseItems (l : list ref) (st : State) : State :=
  {| heap := heap st; databaseItems := l;
     workspaceState := workspaceState st; fired := fired st;
     workspaceFolders := workspaceFolders st;
     storagePath := storagePath st; disk := disk st |}.

Definition with_workspaceState
    (ws : gmap string (list PersistedDatabaseItem)) (st : State) : State :=
  {| heap := heap st; databaseItems := databaseItems st;
     workspaceState := ws; fired := fired st;
     workspaceFolders := workspaceFolders st;
     storagePath := storagePath st; disk := disk st |}.

Definition with_fired (evs : list DatabaseChangedEvent) (st : State) : State :=
  {| heap := heap st; databaseItems := databaseItems st;
     workspaceState := workspaceState st; fired := evs;
     workspaceFolders := workspaceFolders st;
     storagePath := storagePath st; disk := disk st |}.

Definition with_workspaceFolders (fs : list Uri) (st : State) : State :=
  {| heap := heap st; databaseItems := databaseItems st;
     workspaceState := workspaceState st; fired := fired st;
     workspaceFolders := fs;
     storagePath := storagePath st; disk := disk st |}.

Definition with_disk (d : gset string) (st : State) : State :=
  {| heap := heap st; databaseItems := databaseItems st;
     workspaceState := workspaceState st; fired := fired st;
     workspaceFolders := workspaceFolders st;
     storagePath := storagePath st; disk := d |}.

(** Modelled from the spec: the list as it is persisted, one entry per
    item, in order, holding the options and the URI string. *)
Definition persist (h : gmap ref DatabaseItem) (items : list ref)
    : list PersistedDatabaseItem :=
  omap (fun r => toPersisted <$> h !! r) items.

Definition persistedList (st : State) : list PersistedDatabaseItem :=
  persist (heap st) (databaseItems st).

(** Modelled from the spec: the whole list is stored with
    [workspaceState.update('databaseList', ...)]. *)
Definition updatePersistedDatabaseList (st : State) : State :=
  with_workspaceState
    (<["databaseList" := persistedList st]> (workspaceState st)) st.

(** Modelled from the spec: [onDidChangeDatabaseItem] fires with
    [item: undefined] and the kind of the change. *)
Definition fire (k : DatabaseEventKind) (st : State) : State :=
  with_fired (fired st ++ [ {| kind := k; item := None |} ]) st.

(** Modelled from the spec: the item, compared by identity, is taken
    out of the list; nothing happens when it is not there. *)
Fixpoint removeItem (r : ref) (items : list ref) : list ref :=
  match items with
  | [] => []
  | r' :: rest => if decide (r' = r) then rest else r' :: removeItem r rest
  end.

(** Modelled from the spec: [fs.remove(p)] of fs-extra; [p] and
    everything below it disappear. *)
Definition fs_remove (p : string) (d : gset string) : gset string :=
  filter (fun q => ¬ (q = p ∨ startsWith q (p +:+ "/") = true)) d.

(** A directory path with the separator that ends it. *)
Definition withSeparator (dir : string) : string :=
  if endsWith dir "/" then dir else dir +:+ "/".

(** Modelled from the spec: a location lies under a directory when its
    path is the path of the directory, a separator, and something more.
    A directory next to it whose name merely starts with the same
    letters does not hold it, and an empty path is no directory. *)
Definition liesUnder (location dir : string) : bool :=
  negb (bool_decide (dir = "")) && startsWith location (withSeparator dir).

(** Modelled from the spec: a location is controlled by the extension
    when it lies under the extension's storage path. *)
Definition isExtensionControlledLocation (st : State) (u : Uri) : bool :=
  match storagePath st with
  | Some sp => liesUnder (fsPath u) sp
  | None => false
  end.

Section Manager.

(** Whether a workspace folder shows the source archive of an item. *)
Variable belongsToSourceArchiveExplorerUri : DatabaseItem -> Uri -> bool.

(** Modelled from the spec: [DatabaseManager.addDatabaseItem] of
    [databases], of which only the test suite is at hand. *)
Definition addDatabaseItem (r : ref) (st : State) : State :=
  fire Add
    (updatePersistedDatabaseList
       (with_databaseItems (databaseItems st ++ [r]) st)).

(** Modelled from the spec: [DatabaseManager.renameDatabaseItem]. *)
Definition renameDatabaseItem (r : ref) (newName : string) (st : State) : State :=
  fire Rename
    (updatePersistedDatabaseList
       (with_heap (alter (set_name newName) r (heap st)) st)).

(** Modelled from the spec: [workspace.updateWorkspaceFolders(i, 1)]
    for the first folder that belongs to the item, when there is one. *)
Definition removeWorkspaceFolder (it : DatabaseItem) (st : State) : State :=
  match list_find (fun f => belongsToSourceArchiveExplorerUri it f = true)
                  (workspaceFolders st) with
  | Some (i, _) => with_workspaceFolders (delete i (workspaceFolders st)) st
  | None => st
  end.

(** Modelled from the spec: the contents on disk go only for a
    location the extension controls. *)
Definition deleteContents (it : DatabaseItem) (st : State) : State :=
  if isExtensionControlledLocation st (databaseUri it)
  then with_disk (fs_remove (fsPath (databaseUri it)) (disk st)) st
  else st.

(** Modelled from the spec: [DatabaseManager.removeDatabaseItem]. *)
Definition removeDatabaseItem (r : ref) (st : State) : State :=
  let st1 := updatePersistedDatabaseList
               (with_databaseItems (removeItem r (databaseItems st)) st) in
  match heap st !! r with
  | Some it => fire Remove (deleteContents it (removeWorkspaceFolder it st1))
  | None => fire Remove st1
  end.

End Manager.

End Databases.

(** ** A concrete host *)

(** The run of the suite in [external-api-usage-query.test.ts]: a Java
    database whose suite resolves to [FetchExternalAPIs.ql] and whose
    results hold one call of [println]. *)
Module EditorExample.
Import Js Editor.

(** A plain flow-style rendering, standing in for js-yaml's [dump]. *)
Fixpoint renderYaml (v : YamlValue) : string :=
  match v with
  | YString s => s
  | YSeq items =>
      "[" +:+ (fix seq (l : list YamlValue) : string :=
                 match l with
                 | [] => ""
                 | x :: rest => renderYaml x +:+ ", " +:+ seq rest
                 end) items +:+ "]"
  | YMap entries =>
      "{" +:+ (fix fields (l : list (string * YamlValue)) : string :=
                 match l with
                 | [] => ""
                 | (k, x) :: rest =>
                     k +:+ ": " +:+ renderYaml x +:+ ", " +:+ fields rest
                 end) entries +:+ "}"
  end.

(** A decoded chunk is a list of tuples; a usage is the signature in
    the first column. *)
Definition Chunk : Type := list (list string).
Definition Usage : Type := string.

Definition javaDatabase : DatabaseItem :=
  {| databaseUri := Uri_file "/a/b/c/src.zip"; language := "java" |}.

Definition javaPacks : QlPacksForLanguage :=
  {| dbschemePack := "codeql/java-all";
     dbschemePackIsLibraryPack := false;
     queryPack := Some "codeql/java-queries" |}.

Definition outputOfRun : QueryOutputDir :=
  {| bqrsPath := "/tmp/queries/results.bqrs";
     logPath := "/tmp/queries/query.log" |}.

Definition completedRun : CoreCompletedQuery :=
  {| resultType := 0; outputDir := outputOfRun |}.

Definition selectInfo : BQRSInfo :=
  {| result_sets :=
       [ {| name := "#select"; rows := 10;
            columns := [ {| column_name := "apiName"; column_kind := "s" |};
                         {| column_name := "supported"; column_kind := "b" |};
                         {| column_name := "usage"; column_kind := "e" |} ] |} ] |}.

Definition printlnChunk : Chunk :=
  [ ["java.io.PrintStream#println(String)"; "true"; "println(...)"] ].

Definition javaHost : Host Usage Chunk :=
  {| qlpackOfDatabase := fun _ => Returned javaPacks;
     file := fun postfix => Returned ("/tmp/suite" +:+ postfix);
     writeFile := fun _ _ _ => Returned tt;
     dump := renderYaml;
     getOnDiskWorkspaceFolders := [];
     resolveQueriesInSuite := fun _ _ =>
       Returned ["/home/github/codeql/java/ql/src/Telemetry/FetchExternalAPIs.ql"];
     createQueryRun := fun _ _ _ _ _ =>
       Returned {| queryRun_outputDir := outputOfRun |};
     evaluate := fun _ =>
       ([ {| step := 500; maxStep := 1000; message := "Running query" |} ],
        Returned completedRun);
     bqrsInfo := fun _ => Returned selectInfo;
     bqrsDecode := fun _ _ => Returned printlnChunk;
     decodeBqrsToExternalApiUsages := fun chunk => omap head chunk |}.

(** The same host, except that the suite resolves to no query. *)
Definition hostWithoutQuery : Host Usage Chunk :=
  {| qlpackOfDatabase := qlpackOfDatabase javaHost;
     file := file javaHost;
     writeFile := writeFile javaHost;
     dump := dump javaHost;
     getOnDiskWorkspaceFolders := getOnDiskWorkspaceFolders javaHost;
     resolveQueriesInSuite := fun _ _ => Returned [];
     createQueryRun := createQueryRun javaHost;
     evaluate := evaluate javaHost;
     bqrsInfo := bqrsInfo javaHost;
     bqrsDecode := bqrsDecode javaHost;
     decodeBqrsToExternalApiUsages := decodeBqrsToExternalApiUsages javaHost |}.

End EditorExample.

(** ** A concrete database manager *)

(** The manager of [databases.test.ts]: one database item at [db] under
    the extension's storage directory, a source archive next to it. *)
Module DatabasesExample.
Import Js Databases.

Definition MOCK_DB_OPTIONS : FullDatabaseOptions :=
  {| ignoreSourceArchive := false;
     dateAdded := Some 123%Z;
     displayName := None;
     language := Some "" |}.

Definition mockDb : DatabaseItem :=
  {| databaseUri := Uri_file "/tmp/dir/db"; options := MOCK_DB_OPTIONS |}.

Definition manager (storage : option string) (items : list ref) : State :=
  {| heap := {[ 0%nat := mockDb ]};
     databaseItems := items;
     workspaceState := ∅;
     fired := [];
     workspaceFolders := [Uri_file "/tmp/dir/src.zip"];
     storagePath := storage;
     disk := {[ "/tmp/dir/db"; "/tmp/dir/db/db-java"; "/tmp/dir/src.zip" ]} |}.

(** The item belongs to the first workspace folder. *)
Definition belongsToFirstFolder (_ : DatabaseItem) (folder : Uri) : bool :=
  bool_decide (folder = Uri_file "/tmp/dir/src.zip").

(** A database in the directory [/tmp/dir2], next to the storage
    directory [/tmp/dir]. *)
Definition siblingDb : DatabaseItem :=
  {| databaseUri := Uri_file "/tmp/dir2/db"; options := MOCK_DB_OPTIONS |}.

Definition managerOfSibling (storage : option string) : State :=
  {| heap := {[ 0%nat := siblingDb ]};
     databaseItems := [0%nat];
     workspaceState := ∅;
     fired := [];
     workspaceFolders := [Uri_file "/tmp/dir/src.zip"];
     storagePath := storage;
     disk := {[ "/tmp/dir2/db"; "/tmp/dir2/db/db-java"; "/tmp/dir/src.zip" ]} |}.

End DatabasesExample.

(** ** What the panel and the log see of a load *)

Module EditorTraces.
Import Js Editor.

Section Traces.

Variable ExternalApiUsage : Type.

(** The message of [clearProgress]. *)
Definition clearMessage : Event ExternalApiUsage :=
  EvPostMessage (ShowProgressMessage 0 0 "").

(** What the [catch] block of [loadExternalApiUsages] reports for an
    error. *)
Definition failureReport (err : Error) : Event ExternalApiUsage :=
  EvShowAndLogException
    ("Failed to load external APi usages: " +:+ getErrorMessage err).

(** The ["showProgress"] messages that were posted, in order, as
    (step, maxStep, message). *)
Definition progressPosted (tr : list (Event ExternalApiUsage))
    : list (Z * Z * string) :=
  omap (fun e => match e with
                 | EvPostMessage (ShowProgressMessage s m msg) => Some (s, m, msg)
                 | _ => None
                 end) tr.

(** The exceptions shown to the user and logged. *)
Definition exceptionsReported (tr : list (Event ExternalApiUsage)) : list string :=
  omap (fun e => match e with
                 | EvShowAndLogException msg => Some msg
                 | _ => None
                 end) tr.

(** Whether the CLI was asked about the BQRS file [file], or asked to
    decode it. *)
Definition readsResults (file : string) (tr : list (Event ExternalApiUsage)) : Prop :=
  EvBqrsInfo file ∈ tr \/ exists resultSet, EvBqrsDecode file resultSet ∈ tr.

End Traces.

Arguments clearMessage {ExternalApiUsage}.
Arguments failureReport {ExternalApiUsage} err.

End EditorTraces.

(** ** Hosts on which something goes wrong *)

Module EditorFailures.
Import Js Editor EditorExample.

(** A second result set next to [#select]. *)
Definition twoSetsInfo : BQRSInfo :=
  {| result_sets :=
       result_sets selectInfo
         ++ [ {| name := "#select2"; rows := 10; columns := [] |} ] |}.

(** The Java host, except that the results hold two result sets. *)
Definition hostWithTwoResultSets : Host Usage Chunk :=
  {| qlpackOfDatabase := qlpackOfDatabase javaHost;
     file := file javaHost;
     writeFile := writeFile javaHost;
     dump := dump javaHost;
     getOnDiskWorkspaceFolders := getOnDiskWorkspaceFolders javaHost;
     resolveQueriesInSuite := resolveQueriesInSuite javaHost;
     createQueryRun := createQueryRun javaHost;
     evaluate := evaluate javaHost;
     bqrsInfo := fun _ => Returned twoSetsInfo;
     bqrsDecode := bqrsDecode javaHost;
     decodeBqrsToExternalApiUsages := decodeBqrsToExternalApiUsages javaHost |}.

(** The Java host, except that the CLI cannot read the results. *)
Definition hostWithUnreadableResults : Host Usage Chunk :=
  {| qlpackOfDatabase := qlpackOfDatabase javaHost;
     file := file javaHost;
     writeFile := writeFile javaHost;
     dump := dump javaHost;
     getOnDiskWorkspaceFolders := getOnDiskWorkspaceFolders javaHost;
     resolveQueriesInSuite := resolveQueriesInSuite javaHost;
     createQueryRun := createQueryRun javaHost;
     evaluate := evaluate javaHost;
     bqrsInfo := fun _ => Thrown "bqrs info: file not found";
     bqrsDecode := bqrsDecode javaHost;
     decodeBqrsToExternalApiUsages := decodeBqrsToExternalApiUsages javaHost |}.

(** The Java host, except that the query run is cancelled after one
    progress update. *)
Definition hostWithCancelledRun : Host Usage Chunk :=
  {| qlpackOfDatabase := qlpackOfDatabase javaHost;
     file := file javaHost;
     writeFile := writeFile javaHost;
     dump := dump javaHost;
     getOnDiskWorkspaceFolders := getOnDiskWorkspaceFolders javaHost;
     resolveQueriesInSuite := resolveQueriesInSuite javaHost;
     createQueryRun := createQueryRun javaHost;
     evaluate := fun _ =>
       ([ {| step := 10; maxStep := 1000; message := "Compiling" |} ],
        Thrown "Query run cancelled");
     bqrsInfo := bqrsInfo javaHost;
     bqrsDecode := bqrsDecode javaHost;
     decodeBqrsToExternalApiUsages := decodeBqrsToExternalApiUsages javaHost |}.

End EditorFailures.

(** * Properties *)

(** ** The data-extensions editor view *)

Section EditorProperties.
Import Js Editor.

Variables ExternalApiUsage DecodedBqrsChunk : Type.
Variable host : Host ExternalApiUsage DecodedBqrsChunk.
Variable databaseItem : DatabaseItem.
Variable queryStorageDir : string.

#[local] Abbreviation Event := (Event ExternalApiUsage).
#[local] Abbreviation M := (M ExternalApiUsage).

(** *** Sequencing *)

Lemma bind_returned {A B} (tr : list Event) (a : A) (k : A -> M B) :
  bind (tr, Returned a) k = (tr ++ trace (k a), outcome (k a)).
Proof. unfold bind, trace, outcome. by destruct (k a). Qed.

Lemma bind_thrown {A B} (tr : list Event) (e : Error) (k : A -> M B) :
  bind (tr, Thrown e) k = (tr, Thrown e).
Proof. reflexivity. Qed.

Lemma trace_bind {A B} (m : M A) (k : A -> M B) :
  trace (bind m k) =
  trace m ++ match outcome m with
             | Returned a => trace (k a)
             | Thrown _ => []
             end.
Proof.
  destruct m as [tr [a|e]].
  - by rewrite bind_returned.
  - rewrite bind_thrown. simpl. by rewrite app_nil_r.
Qed.

Lemma outcome_bind {A B} (m : M A) (k : A -> M B) :
  outcome (bind m k) =
  match outcome m with
  | Returned a => outcome (k a)
  | Thrown e => Thrown e
  end.
Proof.
  destruct m as [tr [a|e]].
  - by rewrite bind_returned.
  - by rewrite bind_thrown.
Qed.

Lemma surjective_M {A} (m : M A) : m = (trace m, outcome m).
Proof. by destruct m. Qed.

(** Unfolds one layer of sequencing and computes. *)
Ltac run :=
  repeat (unfold mbind, M_bind, call, emit, log, showProgress, clearProgress,
            postMessage, ret, throw;
          rewrite ?bind_returned, ?bind_thrown; simpl).

(** *** Progress messages *)

Lemma showProgress_trace update maxStep' :
  Forall (@isProgress ExternalApiUsage) (trace (showProgress update maxStep')).
Proof.
  unfold showProgress, postMessage, emit, trace. simpl.
  repeat constructor. unfold isProgress. eauto.
Qed.

Lemma progress_callbacks (updates : list ProgressUpdate) (maxStep' : option Z) :
  Forall (@isProgress ExternalApiUsage)
    (flat_map (fun update => trace (showProgress update maxStep')) updates).
Proof.
  induction updates as [|u updates IH]; simpl.
  - constructor.
  - constructor; [unfold isProgress; eauto | exact IH].
Qed.

Lemma omap_progress {B} (f : Event -> option B) (tr : list Event) :
  (forall s m msg, f (EvPostMessage (ShowProgressMessage s m msg)) = None) ->
  Forall isProgress tr -> omap f tr = [].
Proof.
  intros Hf. induction 1 as [|e tr (s & m & msg & ->) _ IH]; simpl.
  - reflexivity.
  - by rewrite Hf.
Qed.

Lemma existsb_progress (f : Event -> bool) (tr : list Event) :
  (forall s m msg, f (EvPostMessage (ShowProgressMessage s m msg)) = false) ->
  Forall isProgress tr -> existsb f tr = false.
Proof.
  intros Hf. induction 1 as [|e tr (s & m & msg & ->) _ IH]; simpl.
  - reflexivity.
  - by rewrite Hf.
Qed.

Lemma resultsPosted_app (tr1 tr2 : list Event) :
  resultsPosted (tr1 ++ tr2) = resultsPosted tr1 ++ resultsPosted tr2.
Proof. apply omap_app. Qed.

Lemma resultsPosted_progress s m msg (tr : list Event) :
  resultsPosted (EvPostMessage (ShowProgressMessage s m msg) :: tr)
    = resultsPosted tr.
Proof. reflexivity. Qed.

(** *** Reading the results *)

Lemma getResults_first_call bqrsPath :
  exists rest, trace (getResults host bqrsPath) = EvBqrsInfo bqrsPath :: rest.
Proof.
  unfold getResults, mbind, M_bind. rewrite trace_bind.
  unfold call. simpl. eauto.
Qed.

Lemma getResults_single bqrsPath info resultSet :
  bqrsInfo host bqrsPath = Returned info ->
  result_sets info = [resultSet] ->
  getResults host bqrsPath =
    ([ EvBqrsInfo bqrsPath;
       EvPostMessage (ShowProgressMessage 1200 1500 "Decoding results");
       EvBqrsDecode bqrsPath (name resultSet) ],
     Outcome_map Some (bqrsDecode host bqrsPath (name resultSet))).
Proof.
  intros Hinfo Hsets. unfold getResults. run.
  rewrite Hinfo. run. rewrite Hsets. simpl.
  unfold showProgress. run.
  by destruct (bqrsDecode host bqrsPath (name resultSet)).
Qed.

Lemma getResults_not_single bqrsPath info :
  bqrsInfo host bqrsPath = Returned info ->
  length (result_sets info) ≠ 1%nat ->
  getResults host bqrsPath =
    ([ EvBqrsInfo bqrsPath;
       EvLog ("Expected exactly one result set, got "
                +:+ pretty (length (result_sets info))) ],
     Returned None).
Proof.
  intros Hinfo Hlen. unfold getResults. run.
  rewrite Hinfo. run.
  by rewrite bool_decide_eq_false_2.
Qed.

(** C2. Result files are read through the CLI only: [getResults]
    first asks [bqrsInfo] about the file, whatever the path; when the
    answer lists exactly one result set it shows the decoding progress
    and returns what [bqrsDecode] gives for the name of that set; for
    any other number of result sets it logs the number and returns
    [undefined], without decoding anything. *)
Theorem getResults_reads_through_cli (bqrsPath : string) :
  (exists rest, trace (getResults host bqrsPath) = EvBqrsInfo bqrsPath :: rest) /\
  forall info : BQRSInfo,
    bqrsInfo host bqrsPath = Returned info ->
    (length (result_sets info) = 1%nat ->
       exists resultSet,
         result_sets info = [resultSet] /\
         outcome (getResults host bqrsPath) =
           Outcome_map Some (bqrsDecode host bqrsPath (name resultSet)) /\
         trace (getResults host bqrsPath) =
           [ EvBqrsInfo bqrsPath;
             EvPostMessage (ShowProgressMessage 1200 1500 "Decoding results");
             EvBqrsDecode bqrsPath (name resultSet) ]) /\
    (length (result_sets info) ≠ 1%nat ->
       outcome (getResults host bqrsPath) = Returned None /\
       trace (getResults host bqrsPath) =
         [ EvBqrsInfo bqrsPath;
           EvLog ("Expected exactly one result set, got "
                    +:+ pretty (length (result_sets info))) ]).
Proof.
  split; [apply getResults_first_call|]. intros info Hinfo. split.
  - intros Hlen.
    destruct (result_sets info) as [|resultSet [|? ?]] eqn:Hsets;
      simpl in Hlen; try discriminate.
    exists resultSet. split; [done|].
    by rewrite (getResults_single _ Hinfo Hsets).
  - intros Hlen. by rewrite (getResults_not_single _ Hinfo Hlen).
Qed.

(** *** Running the query *)

#[local] Abbreviation runQuery := (runQuery host databaseItem queryStorageDir).
#[local] Abbreviation loadExternalApiUsages :=
  (loadExternalApiUsages host databaseItem queryStorageDir).

Lemma evaluateQuery_shape queryRun :
  exists progress,
    evaluateQuery host queryRun =
      (EvEvaluate queryRun (logPath (queryRun_outputDir queryRun)) :: progress,
       snd (evaluate host queryRun)) /\
    Forall (@isProgress ExternalApiUsage) progress.
Proof.
  unfold evaluateQuery, mbind, M_bind, emit. rewrite bind_returned.
  eexists. split; [reflexivity|].
  apply (progress_callbacks _ (Some 1500%Z)).
Qed.

(** Answers one call to the outside world, both ways. *)
Ltac answer :=
  match goal with
  | |- context [bind (_, ?o) _] => destruct o eqn:?; run
  end.

Tactic Notation "answer" "as" ident(x) :=
  match goal with
  | |- context [bind (_, ?o) _] => destruct o as [x|?] eqn:?; run
  end.

Lemma runQuery_resultsPosted : resultsPosted (trace runQuery) = [].
Proof.
  unfold Editor.runQuery. run.
  do 4 (answer; [|done]).
  case_bool_decide; run; [|done].
  answer as queryRun; [|done].
  destruct (evaluateQuery_shape queryRun) as (progress & -> & Hprogress).
  destruct (evaluate host queryRun).2; run; rewrite ?app_nil_r;
    by apply omap_progress.
Qed.

Lemma getResults_resultsPosted bqrsPath :
  resultsPosted (trace (getResults host bqrsPath)) = [].
Proof.
  unfold getResults. run.
  answer as info; [|done].
  case_bool_decide; run; [|done].
  destruct (result_sets info !! 0%nat); run; [|done].
  by answer.
Qed.

(** *** Loading the external API usages *)

Lemma loadExternalApiUsages_success completed chunk :
  outcome runQuery = Returned (Some completed) ->
  outcome (getResults host (bqrsPath (outputDir completed)))
    = Returned (Some chunk) ->
  loadExternalApiUsages =
    (trace runQuery
       ++ [EvPostMessage (ShowProgressMessage 1100 1500 "Loading results")]
       ++ trace (getResults host (bqrsPath (outputDir completed)))
       ++ [ EvPostMessage (ShowProgressMessage 1450 1500 "Finalizing results");
            EvPostMessage (SetExternalApiUsagesMessage
                             (decodeBqrsToExternalApiUsages host chunk));
            EvPostMessage (ShowProgressMessage 0 0 "") ],
     Returned tt).
Proof.
  intros Hquery Hresults. unfold Editor.loadExternalApiUsages.
  rewrite (surjective_M runQuery), Hquery. run.
  rewrite (surjective_M (getResults host _)), Hresults. run.
  reflexivity.
Qed.

(** C1. When the query run completes and reading its BQRS file yields
    a chunk, [loadExternalApiUsages] returns normally, the panel
    receives exactly one ["setExternalApiUsages"] message, it carries
    what [decodeBqrsToExternalApiUsages] makes of that chunk, and the
    message right after it, the last one, clears the progress (step 0,
    maxStep 0, empty message). *)
Theorem loadExternalApiUsages_shows_decoded_results
    (completed : CoreCompletedQuery) (chunk : DecodedBqrsChunk) :
  outcome runQuery = Returned (Some completed) ->
  outcome (getResults host (bqrsPath (outputDir completed)))
    = Returned (Some chunk) ->
  outcome loadExternalApiUsages = Returned tt /\
  resultsPosted (trace loadExternalApiUsages)
    = [decodeBqrsToExternalApiUsages host chunk] /\
  exists before,
    trace loadExternalApiUsages =
      before ++ [ EvPostMessage (SetExternalApiUsagesMessage
                                   (decodeBqrsToExternalApiUsages host chunk));
                  EvPostMessage (ShowProgressMessage 0 0 "") ].
Proof.
  intros Hquery Hresults.
  rewrite (loadExternalApiUsages_success Hquery Hresults). simpl.
  split; [reflexivity|]. split.
  - rewrite resultsPosted_app, resultsPosted_progress, resultsPosted_app.
    by rewrite runQuery_resultsPosted, getResults_resultsPosted.
  - exists (trace runQuery
              ++ [EvPostMessage (ShowProgressMessage 1100 1500 "Loading results")]
              ++ trace (getResults host (bqrsPath (outputDir completed)))
              ++ [EvPostMessage
                    (ShowProgressMessage 1450 1500 "Finalizing results")]).
    rewrite <- !app_assoc. reflexivity.
Qed.

(** *** When the suite does not resolve to exactly one query *)

Lemma runQuery_not_one_query qlpacks suiteFile queries :
  qlpackOfDatabase host databaseItem = Returned qlpacks ->
  file host ".qls" = Returned suiteFile ->
  writeFile host suiteFile
    (dump host (YSeq (suiteYaml databaseItem qlpacks))) "utf8" = Returned tt ->
  resolveQueriesInSuite host suiteFile (getOnDiskWorkspaceFolders host)
    = Returned queries ->
  length queries ≠ 1%nat ->
  runQuery =
    ([ EvQlpackOfDatabase databaseItem;
       EvFile ".qls";
       EvWriteFile suiteFile
         (dump host (YSeq (suiteYaml databaseItem qlpacks))) "utf8";
       EvResolveQueriesInSuite suiteFile (getOnDiskWorkspaceFolders host);
       EvLog ("Expected exactly one query, got " +:+ pretty (length queries)) ],
     Returned None).
Proof.
  intros Hpacks Hfile Hwrite Hresolve Hlen. unfold Editor.runQuery. run.
  rewrite Hpacks. run. rewrite Hfile. run. rewrite Hwrite. run.
  rewrite Hresolve. run.
  by rewrite bool_decide_eq_false_2.
Qed.

(** C9. When the suite resolves to a number of queries other than
    one, [runQuery] logs that number and returns [undefined]; it
    neither creates nor evaluates a query run.  [loadExternalApiUsages]
    then only clears the progress: no results message is posted. *)
Theorem runQuery_needs_exactly_one_query
    (qlpacks : QlPacksForLanguage) (suiteFile : string) (queries : list string) :
  qlpackOfDatabase host databaseItem = Returned qlpacks ->
  file host ".qls" = Returned suiteFile ->
  writeFile host suiteFile
    (dump host (YSeq (suiteYaml databaseItem qlpacks))) "utf8" = Returned tt ->
  resolveQueriesInSuite host suiteFile (getOnDiskWorkspaceFolders host)
    = Returned queries ->
  length queries ≠ 1%nat ->
  outcome runQuery = Returned None /\
  last (trace runQuery) =
    Some (EvLog ("Expected exactly one query, got "
                   +:+ pretty (length queries))) /\
  createsQueryRun (trace runQuery) = false /\
  evaluatesQuery (trace runQuery) = false /\
  loadExternalApiUsages =
    (trace runQuery ++ [EvPostMessage (ShowProgressMessage 0 0 "")],
     Returned tt) /\
  resultsPosted (trace loadExternalApiUsages) = [] /\
  createsQueryRun (trace loadExternalApiUsages) = false.
Proof.
  intros Hpacks Hfile Hwrite Hresolve Hlen.
  pose proof (runQuery_not_one_query Hpacks Hfile Hwrite Hresolve Hlen) as Hrun.
  assert (loadExternalApiUsages =
            (trace runQuery ++ [EvPostMessage (ShowProgressMessage 0 0 "")],
             Returned tt)) as Hload.
  { unfold Editor.loadExternalApiUsages. rewrite Hrun. by run. }
  rewrite Hload, Hrun. simpl. done.
Qed.

(** *** The query suite *)

Lemma suiteYaml_map qlpacks :
  suiteYaml databaseItem qlpacks
    = map (suiteEntry databaseItem) (packsToSearch qlpacks).
Proof.
  unfold suiteYaml.
  enough (forall packs suite,
            fold_left (fun suite qlpack => suite ++ [suiteEntry databaseItem qlpack])
                      packs suite
            = suite ++ map (suiteEntry databaseItem) packs) as H
    by apply (H _ []).
  induction packs as [|p packs IH]; intros suite; simpl.
  - by rewrite app_nil_r.
  - by rewrite IH, <- app_assoc.
Qed.

Lemma runQuery_filesWritten qlpacks suiteFile :
  qlpackOfDatabase host databaseItem = Returned qlpacks ->
  file host ".qls" = Returned suiteFile ->
  filesWritten (trace runQuery) =
    [(suiteFile, dump host (YSeq (suiteYaml databaseItem qlpacks)), "utf8")].
Proof.
  intros Hpacks Hfile. unfold Editor.runQuery. run.
  rewrite Hpacks. run. rewrite Hfile. run.
  do 2 (answer; [|done]).
  case_bool_decide; run; [|done].
  answer as queryRun; [|done].
  destruct (evaluateQuery_shape queryRun) as (progress & -> & Hprogress).
  destruct (evaluate host queryRun).2; run; rewrite ?app_nil_r;
    f_equal; by apply omap_progress.
Qed.

(** C7.  Once the qlpacks of the database and the temporary file are
    known, [runQuery] writes one file, the [.qls] file, as UTF-8; its
    content is the YAML dump of a list that holds an entry for the
    dbscheme pack and then, exactly when a query pack is present, an
    entry for the query pack.  A query pack is present when
    [qlpacks.queryPack] passes the guard [if (qlpacks.queryPack)]: it
    is defined and is a pack name, not the empty string.  Every entry is
    [{from: <pack>, queries: ".", include: {id:
    "<language>/telemetry/fetch-external-apis"}}]. *)
Theorem runQuery_writes_suite (qlpacks : QlPacksForLanguage) (suiteFile : string) :
  qlpackOfDatabase host databaseItem = Returned qlpacks ->
  file host ".qls" = Returned suiteFile ->
  filesWritten (trace runQuery) =
    [(suiteFile, dump host (YSeq (suiteYaml databaseItem qlpacks)), "utf8")] /\
  suiteYaml databaseItem qlpacks =
    suiteEntry databaseItem (dbschemePack qlpacks)
      :: match queryPack qlpacks with
         | Some qp => if bool_decide (qp = "") then []
                      else [suiteEntry databaseItem qp]
         | None => []
         end /\
  forall qlpack,
    suiteEntry databaseItem qlpack =
      YMap [ ("from", YString qlpack);
             ("queries", YString ".");
             ("include",
               YMap [ ("id", YString (language databaseItem
                                        +:+ "/telemetry/fetch-external-apis")) ]) ].
Proof.
  intros Hpacks Hfile. split; [by apply runQuery_filesWritten|].
  split; [|reflexivity].
  rewrite suiteYaml_map. unfold packsToSearch, truthy.
  destruct (queryPack qlpacks) as [qp|]; [|reflexivity].
  by case_bool_decide.
Qed.

(** *** Messages from the web view *)

Lemma outcome_try_catch_emit (m : M unit) (f : Error -> Event) :
  outcome (try_catch m (fun err => emit (f err))) = Returned tt.
Proof. by destruct m as [tr [[]|e]]. Qed.

Lemma trace_try_catch {A} (m : M A) (h : Error -> M A) :
  exists rest, trace (try_catch m h) = trace m ++ rest.
Proof.
  destruct m as [tr [a|e]]; simpl.
  - exists []. by rewrite app_nil_r.
  - destruct (h e) as [tr' r]. by exists tr'.
Qed.

Lemma loadExternalApiUsages_returns : outcome loadExternalApiUsages = Returned tt.
Proof. apply outcome_try_catch_emit. Qed.

Lemma loadExternalApiUsages_runs_query :
  exists rest,
    trace loadExternalApiUsages = EvQlpackOfDatabase databaseItem :: rest.
Proof.
  unfold Editor.loadExternalApiUsages.
  match goal with
  | |- context [try_catch ?m ?h] => destruct (trace_try_catch m h) as [rest ->]
  end.
  unfold mbind, M_bind. rewrite trace_bind.
  unfold Editor.runQuery at 1, mbind, M_bind. rewrite trace_bind.
  unfold call. simpl. eauto.
Qed.

(** C6. [onMessage] starts the load exactly for a ["viewLoaded"]
    message: it then runs [super.onWebViewLoaded()] followed by the
    whole of [loadExternalApiUsages], which begins by resolving the
    qlpacks for the query, and returns normally.  For every other tag
    it does nothing and throws ["Unexpected message type"]. *)
Theorem onMessage_dispatch (msg : FromDataExtensionsEditorMessage) :
  onMessage host databaseItem queryStorageDir msg =
    (if bool_decide (msg_t msg = "viewLoaded")
     then (EvSuperOnWebViewLoaded :: trace loadExternalApiUsages, Returned tt)
     else ([], Thrown "Unexpected message type")) /\
  (EvQlpackOfDatabase databaseItem
     ∈ trace (onMessage host databaseItem queryStorageDir msg)
   <-> msg_t msg = "viewLoaded") /\
  (outcome (onMessage host databaseItem queryStorageDir msg)
     = Thrown "Unexpected message type"
   <-> msg_t msg ≠ "viewLoaded").
Proof.
  assert (onMessage host databaseItem queryStorageDir msg =
            (if bool_decide (msg_t msg = "viewLoaded")
             then (EvSuperOnWebViewLoaded :: trace loadExternalApiUsages,
                   Returned tt)
             else ([], Thrown "Unexpected message type"))) as Hmsg.
  { unfold onMessage, onWebViewLoaded. case_bool_decide; [|reflexivity].
    run. by rewrite loadExternalApiUsages_returns. }
  split; [exact Hmsg|]. rewrite Hmsg.
  destruct loadExternalApiUsages_runs_query as [rest Hrest].
  case_bool_decide as Ht; simpl.
  - split; [split; [done|]|split; [done|]].
    + intros _. rewrite Hrest. set_solver.
    + done.
  - split; [split; [|done]|split; [done|done]].
    intros Hin. by apply elem_of_nil in Hin.
Qed.

(** *** Every way a load can go *)

Import EditorTraces.

(** The body of the [try] either throws, with the query run or with
    the reading of the results, or ends by clearing the progress. *)
Lemma loadExternalApiUsages_cases :
  match outcome runQuery with
  | Thrown e =>
      loadExternalApiUsages = (trace runQuery ++ [failureReport e], Returned tt)
  | Returned None =>
      loadExternalApiUsages = (trace runQuery ++ [clearMessage], Returned tt)
  | Returned (Some completed) =>
      let results := getResults host (bqrsPath (outputDir completed)) in
      let loading :=
        EvPostMessage (ShowProgressMessage 1100 1500 "Loading results") in
      match outcome results with
      | Thrown e =>
          loadExternalApiUsages =
            (trace runQuery ++ [loading] ++ trace results ++ [failureReport e],
             Returned tt)
      | Returned None =>
          loadExternalApiUsages =
            (trace runQuery ++ [loading] ++ trace results ++ [clearMessage],
             Returned tt)
      | Returned (Some chunk) =>
          loadExternalApiUsages =
            (trace runQuery ++ [loading] ++ trace results
               ++ [ EvPostMessage
                      (ShowProgressMessage 1450 1500 "Finalizing results");
                    EvPostMessage (SetExternalApiUsagesMessage
                                     (decodeBqrsToExternalApiUsages host chunk));
                    clearMessage ],
             Returned tt)
      end
  end.
Proof.
  unfold Editor.loadExternalApiUsages.
  rewrite (surjective_M runQuery).
  destruct (outcome runQuery) as [[completed|]|e]; simpl outcome; cbv zeta.
  - run.
    rewrite (surjective_M (getResults host (bqrsPath (outputDir completed)))).
    destruct (outcome (getResults host (bqrsPath (outputDir completed))))
      as [[chunk|]|e]; run; rewrite <- ?app_assoc; reflexivity.
  - run. reflexivity.
  - run. rewrite <- ?app_assoc. reflexivity.
Qed.

(** *** The events of a query run and of reading the results *)

Lemma evaluateQuery_exact queryRun :
  evaluateQuery host queryRun =
    (EvEvaluate queryRun (logPath (queryRun_outputDir queryRun))
       :: map (fun update =>
                 EvPostMessage
                   (ShowProgressMessage (step update) 1500 (message update)))
              (fst (evaluate host queryRun)),
     snd (evaluate host queryRun)).
Proof.
  unfold evaluateQuery, mbind, M_bind, emit. rewrite bind_returned.
  simpl. do 2 f_equal.
Qed.

(** Whatever holds of each event that [runQuery] can produce holds of
    its whole trace. *)
Lemma runQuery_events (P : Event -> Prop) :
  P (EvQlpackOfDatabase databaseItem) ->
  P (EvFile ".qls") ->
  (forall qlpacks suiteFile,
     qlpackOfDatabase host databaseItem = Returned qlpacks ->
     file host ".qls" = Returned suiteFile ->
     P (EvWriteFile suiteFile
          (dump host (YSeq (suiteYaml databaseItem qlpacks))) "utf8")) ->
  (forall qlpacks suiteFile,
     qlpackOfDatabase host databaseItem = Returned qlpacks ->
     file host ".qls" = Returned suiteFile ->
     writeFile host suiteFile
       (dump host (YSeq (suiteYaml databaseItem qlpacks))) "utf8" = Returned tt ->
     P (EvResolveQueriesInSuite suiteFile (getOnDiskWorkspaceFolders host))) ->
  (forall suiteFile queries,
     resolveQueriesInSuite host suiteFile (getOnDiskWorkspaceFolders host)
       = Returned queries ->
     length queries ≠ 1%nat ->
     P (EvLog ("Expected exactly one query, got " +:+ pretty (length queries)))) ->
  (forall qlpacks suiteFile query,
     qlpackOfDatabase host databaseItem = Returned qlpacks ->
     file host ".qls" = Returned suiteFile ->
     writeFile host suiteFile
       (dump host (YSeq (suiteYaml databaseItem qlpacks))) "utf8" = Returned tt ->
     resolveQueriesInSuite host suiteFile (getOnDiskWorkspaceFolders host)
       = Returned [query] ->
     P (EvCreateQueryRun (fsPath (databaseUri databaseItem)) (Some query) false
          (getOnDiskWorkspaceFolders host) queryStorageDir)) ->
  (forall queryRun,
     P (EvEvaluate queryRun (logPath (queryRun_outputDir queryRun)))) ->
  (forall queryRun update,
     update ∈ fst (evaluate host queryRun) ->
     P (EvPostMessage
          (ShowProgressMessage (step update) 1500 (message update)))) ->
  Forall P (trace runQuery).
Proof.
  intros Hpacks Hfile Hwrite Hresolve Hlog Hcreate Hevaluate Hprogress.
  unfold Editor.runQuery. run.
  answer as qlpacks; [|by repeat constructor].
  answer as suiteFile; [|by repeat constructor].
  specialize (Hwrite qlpacks suiteFile eq_refl eq_refl).
  specialize (Hresolve qlpacks suiteFile eq_refl eq_refl).
  answer as written; [|by repeat constructor].
  destruct written. specialize (Hresolve eq_refl).
  answer as queries; [|by repeat constructor].
  case_bool_decide as Hlen; run.
  - destruct queries as [|query [|? ?]]; simpl in Hlen; try discriminate.
    assert (P (EvCreateQueryRun (fsPath (databaseUri databaseItem))
                 (Some query) false (getOnDiskWorkspaceFolders host)
                 queryStorageDir)) as Hcreated
      by (eapply (Hcreate qlpacks suiteFile query); eauto).
    simpl. answer as queryRun; [|repeat constructor; eauto].
    rewrite evaluateQuery_exact.
    assert (Forall P
              (map (fun update =>
                      EvPostMessage
                        (ShowProgressMessage (step update) 1500 (message update)))
                   (fst (evaluate host queryRun)))) as Hupdates.
    { apply Forall_fmap, Forall_forall. intros update Hin. by eapply Hprogress. }
    destruct (evaluate host queryRun).2; run; rewrite ?app_nil_r;
      repeat (constructor; eauto).
  - repeat constructor; eauto.
Qed.

(** Every way [getResults] can go. *)
Lemma getResults_cases bqrsPath :
  match bqrsInfo host bqrsPath with
  | Thrown e => getResults host bqrsPath = ([EvBqrsInfo bqrsPath], Thrown e)
  | Returned info =>
      match result_sets info with
      | [resultSet] =>
          getResults host bqrsPath =
            ([ EvBqrsInfo bqrsPath;
               EvPostMessage (ShowProgressMessage 1200 1500 "Decoding results");
               EvBqrsDecode bqrsPath (name resultSet) ],
             Outcome_map Some (bqrsDecode host bqrsPath (name resultSet)))
      | sets =>
          getResults host bqrsPath =
            ([ EvBqrsInfo bqrsPath;
               EvLog ("Expected exactly one result set, got "
                        +:+ pretty (length sets)) ],
             Returned None)
      end
  end.
Proof.
  destruct (bqrsInfo host bqrsPath) as [info|e] eqn:Hinfo.
  - destruct (result_sets info) as [|resultSet [|other sets]] eqn:Hsets.
    + rewrite (getResults_not_single _ Hinfo); rewrite Hsets; done.
    + by rewrite (getResults_single _ Hinfo Hsets).
    + rewrite (getResults_not_single _ Hinfo); rewrite Hsets; done.
  - unfold getResults. run. rewrite Hinfo. by run.
Qed.

Lemma getResults_events (P : Event -> Prop) bqrsPath :
  P (EvBqrsInfo bqrsPath) ->
  (forall n : nat,
     P (EvLog ("Expected exactly one result set, got " +:+ pretty n))) ->
  P (EvPostMessage (ShowProgressMessage 1200 1500 "Decoding results")) ->
  (forall info resultSet,
     bqrsInfo host bqrsPath = Returned info ->
     result_sets info = [resultSet] ->
     P (EvBqrsDecode bqrsPath (name resultSet))) ->
  Forall P (trace (getResults host bqrsPath)).
Proof.
  intros Hinfo Hlog Hdecoding Hdecode.
  pose proof (getResults_cases bqrsPath) as Hcases.
  destruct (bqrsInfo host bqrsPath) as [info|e]; [|rewrite Hcases; by repeat constructor].
  destruct (result_sets info) as [|resultSet [|other sets]] eqn:Hsets;
    rewrite Hcases; repeat constructor; eauto.
Qed.

Lemma loadExternalApiUsages_events (P : Event -> Prop) :
  Forall P (trace runQuery) ->
  (forall bqrsPath, Forall P (trace (getResults host bqrsPath))) ->
  P (EvPostMessage (ShowProgressMessage 1100 1500 "Loading results")) ->
  P (EvPostMessage (ShowProgressMessage 1450 1500 "Finalizing results")) ->
  (forall usages, P (EvPostMessage (SetExternalApiUsagesMessage usages))) ->
  P clearMessage ->
  (forall e, P (failureReport e)) ->
  Forall P (trace loadExternalApiUsages).
Proof.
  intros Hquery Hresults Hloading Hfinalizing Hposted Hclear Hreport.
  pose proof loadExternalApiUsages_cases as Hcases.
  destruct (outcome runQuery) as [[completed|]|e].
  - cbv zeta in Hcases.
    destruct (outcome (getResults host (bqrsPath (outputDir completed))))
      as [[chunk|]|e]; rewrite Hcases; simpl;
      (apply Forall_app; split; [exact Hquery|]);
      (constructor; [exact Hloading|]);
      (apply Forall_app; split; [apply Hresults|]);
      repeat constructor; auto.
  - rewrite Hcases. simpl. apply Forall_app. split; [exact Hquery|].
    by repeat constructor.
  - rewrite Hcases. simpl. apply Forall_app. split; [exact Hquery|].
    by repeat constructor.
Qed.

Lemma omap_nil_Forall {A B} (f : A -> option B) (l : list A) :
  Forall (fun x => f x = None) l -> omap f l = [].
Proof. induction 1 as [|x l Hx _ IH]; simpl; [done|by rewrite Hx]. Qed.

Lemma Forall_omap_Some {A B} (f : A -> option B) (Q : B -> Prop) (l : list A) :
  Forall (fun x => forall y, f x = Some y -> Q y) l -> Forall Q (omap f l).
Proof.
  induction 1 as [|x l Hx _ IH]; simpl; [constructor|].
  destruct (f x) as [y|] eqn:Hfx; [constructor; eauto|done].
Qed.

(** [runQuery] and [getResults] report no exception and never clear
    the progress themselves. *)
Lemma runQuery_exceptionsReported : exceptionsReported (trace runQuery) = [].
Proof. apply omap_nil_Forall, runQuery_events; done. Qed.

Lemma getResults_exceptionsReported bqrsPath :
  exceptionsReported (trace (getResults host bqrsPath)) = [].
Proof. apply omap_nil_Forall, getResults_events; done. Qed.

Lemma runQuery_not_cleared : clearMessage ∉ trace runQuery.
Proof.
  intros Hin.
  assert (Forall (fun e => e ≠ clearMessage) (trace runQuery)) as Hall
    by (apply runQuery_events; done).
  by eapply Forall_forall in Hall.
Qed.

Lemma getResults_not_cleared bqrsPath :
  clearMessage ∉ trace (getResults host bqrsPath).
Proof.
  intros Hin.
  assert (Forall (fun e => e ≠ clearMessage) (trace (getResults host bqrsPath)))
    as Hall by (apply getResults_events; done).
  by eapply Forall_forall in Hall.
Qed.

(** X1. [loadExternalApiUsages] never throws, and it ends in exactly
    one of two ways.  Either its last action is to clear the progress,
    and then no exception was reported; or the query run or the reading
    of the results threw an error, and then its last action is to
    report 'Failed to load external APi usages: <message of the
    error>', that is the only report, the progress is not cleared and
    no results message is posted. *)
Theorem loadExternalApiUsages_clears_or_reports :
  outcome loadExternalApiUsages = Returned tt /\
  ((last (trace loadExternalApiUsages) = Some clearMessage /\
    exceptionsReported (trace loadExternalApiUsages) = []) \/
   (exists e,
      (outcome runQuery = Thrown e \/
       exists completed,
         outcome runQuery = Returned (Some completed) /\
         outcome (getResults host (bqrsPath (outputDir completed))) = Thrown e) /\
      last (trace loadExternalApiUsages) = Some (failureReport e) /\
      exceptionsReported (trace loadExternalApiUsages)
        = ["Failed to load external APi usages: " +:+ e] /\
      (clearMessage ∉ trace loadExternalApiUsages) /\
      resultsPosted (trace loadExternalApiUsages) = [])).
Proof.
  split; [apply loadExternalApiUsages_returns|].
  pose proof loadExternalApiUsages_cases as Hcases.
  pose proof runQuery_exceptionsReported as Hquiet.
  pose proof runQuery_not_cleared as Hkept.
  pose proof runQuery_resultsPosted as Hnone.
  unfold exceptionsReported, resultsPosted in *.
  destruct (outcome runQuery) as [[completed|]|e] eqn:Hquery.
  - cbv zeta in Hcases.
    pose proof (getResults_exceptionsReported (bqrsPath (outputDir completed)))
      as Hquiet'.
    pose proof (@getResults_not_cleared (bqrsPath (outputDir completed)))
      as Hkept'.
    pose proof (getResults_resultsPosted (bqrsPath (outputDir completed)))
      as Hnone'.
    unfold exceptionsReported, resultsPosted in *.
    destruct (outcome (getResults host (bqrsPath (outputDir completed))))
      as [[chunk|]|e] eqn:Hresults; rewrite Hcases; simpl.
    + left. split.
      * rewrite !app_comm_cons, !app_assoc.
        change [?a; ?b; ?c] with ([a; b] ++ [c]).
        rewrite !app_assoc. apply last_snoc.
      * rewrite omap_app, Hquiet. simpl. rewrite omap_app, Hquiet'. done.
    + left. split.
      * rewrite !app_comm_cons, !app_assoc. apply last_snoc.
      * rewrite omap_app, Hquiet. simpl. rewrite omap_app, Hquiet'. done.
    + right. exists e. split; [right; eauto|]. split; [|split; [|split]].
      * rewrite !app_comm_cons, !app_assoc. apply last_snoc.
      * rewrite omap_app, Hquiet. simpl. rewrite omap_app, Hquiet'. done.
      * rewrite elem_of_app, elem_of_cons, elem_of_app, list_elem_of_singleton.
        intros [?|[?|[?|?]]]; done.
      * rewrite omap_app, Hnone. simpl. rewrite omap_app, Hnone'. done.
  - left. rewrite Hcases. simpl. split; [apply last_snoc|].
    rewrite omap_app, Hquiet. done.
  - right. exists e. rewrite Hcases. simpl.
    split; [by left|]. split; [apply last_snoc|]. split; [|split].
    + rewrite omap_app, Hquiet. done.
    + rewrite elem_of_app, list_elem_of_singleton. intros [?|?]; done.
    + rewrite omap_app, Hnone. done.
Qed.

(** *** Where outcomes come from *)

Lemma getResults_chunk_decoded bqrsPath chunk :
  outcome (getResults host bqrsPath) = Returned (Some chunk) ->
  exists info resultSet,
    bqrsInfo host bqrsPath = Returned info /\
    result_sets info = [resultSet] /\
    bqrsDecode host bqrsPath (name resultSet) = Returned chunk.
Proof.
  pose proof (getResults_cases bqrsPath) as Hcases.
  destruct (bqrsInfo host bqrsPath) as [info|e]; [|by rewrite Hcases].
  destruct (result_sets info) as [|resultSet [|other sets]] eqn:Hsets;
    rewrite Hcases; simpl; try done.
  destruct (bqrsDecode host bqrsPath (name resultSet)) as [chunk'|e] eqn:Hdecode;
    simpl; [|done].
  intros [= <-]. by exists info, resultSet.
Qed.

(** X2. [getResults] throws only what the CLI threw: the error of
    [bqrsInfo], or, when exactly one result set is listed, the error of
    [bqrsDecode] for that set.  In particular the element [0] that it
    reads from the list of result sets is always there.  It returns a
    chunk only as the answer of [bqrsDecode] for the one result set, and
    [undefined] only when the number of result sets is not one. *)
Theorem getResults_outcomes (bqrsPath : string) :
  (forall e,
     outcome (getResults host bqrsPath) = Thrown e <->
     bqrsInfo host bqrsPath = Thrown e \/
     exists info resultSet,
       bqrsInfo host bqrsPath = Returned info /\
       result_sets info = [resultSet] /\
       bqrsDecode host bqrsPath (name resultSet) = Thrown e) /\
  (forall chunk,
     outcome (getResults host bqrsPath) = Returned (Some chunk) <->
     exists info resultSet,
       bqrsInfo host bqrsPath = Returned info /\
       result_sets info = [resultSet] /\
       bqrsDecode host bqrsPath (name resultSet) = Returned chunk) /\
  (outcome (getResults host bqrsPath) = Returned None <->
   exists info,
     bqrsInfo host bqrsPath = Returned info /\
     length (result_sets info) ≠ 1%nat).
Proof.
  pose proof (getResults_cases bqrsPath) as Hcases.
  destruct (bqrsInfo host bqrsPath) as [info|e'] eqn:Hinfo.
  - destruct (result_sets info) as [|resultSet [|other sets]] eqn:Hsets;
      rewrite Hcases; simpl.
    + split; [|split].
      * intros e. split; [done|].
        intros [?|(info' & rs & Heq & Hsets' & _)]; [done|].
        injection Heq as <-. by rewrite Hsets in Hsets'.
      * intros chunk. split; [done|].
        intros (info' & rs & Heq & Hsets' & _).
        injection Heq as <-. by rewrite Hsets in Hsets'.
      * split; [|done]. intros _. exists info. by rewrite Hsets.
    + destruct (bqrsDecode host bqrsPath (name resultSet)) as [chunk'|e'']
        eqn:Hdecode; simpl.
      * split; [|split].
        -- intros e. split; [done|].
           intros [?|(info' & rs & Heq & Hsets' & Hthrown)]; [done|].
           injection Heq as <-. rewrite Hsets in Hsets'.
           injection Hsets' as <-. by rewrite Hdecode in Hthrown.
        -- intros chunk. split.
           ++ intros [= <-]. by exists info, resultSet.
           ++ intros (info' & rs & Heq & Hsets' & Hreturned).
              injection Heq as <-. rewrite Hsets in Hsets'.
              injection Hsets' as <-. rewrite Hdecode in Hreturned.
              by injection Hreturned as <-.
        -- split; [done|]. intros (info' & Heq & Hlen).
           injection Heq as <-. by rewrite Hsets in Hlen.
      * split; [|split].
        -- intros e. split.
           ++ intros [= <-]. right. by exists info, resultSet.
           ++ intros [?|(info' & rs & Heq & Hsets' & Hthrown)]; [done|].
              injection Heq as <-. rewrite Hsets in Hsets'.
              injection Hsets' as <-. rewrite Hdecode in Hthrown.
              by injection Hthrown as <-.
        -- intros chunk. split; [done|].
           intros (info' & rs & Heq & Hsets' & Hreturned).
           injection Heq as <-. rewrite Hsets in Hsets'.
           injection Hsets' as <-. by rewrite Hdecode in Hreturned.
        -- split; [done|]. intros (info' & Heq & Hlen).
           injection Heq as <-. by rewrite Hsets in Hlen.
    + split; [|split].
      * intros e. split; [done|].
        intros [?|(info' & rs & Heq & Hsets' & _)]; [done|].
        injection Heq as <-. by rewrite Hsets in Hsets'.
      * intros chunk. split; [done|].
        intros (info' & rs & Heq & Hsets' & _).
        injection Heq as <-. by rewrite Hsets in Hsets'.
      * split; [|done]. intros _. exists info. by rewrite Hsets.
  - rewrite Hcases. simpl. split; [|split].
    + intros e. split.
      * intros [= <-]. by left.
      * intros [[= <-]|(info & rs & Heq & _)]; done.
    + intros chunk. split; [done|]. intros (info & rs & Heq & _). done.
    + split; [done|]. intros (info & Heq & _). done.
Qed.

(** X3. [queryRunner.createQueryRun] is only ever called for the one
    query that this run resolved: the query path is never undefined, it
    is the single element of the list that [resolveQueriesInSuite]
    returned for the temporary [.qls] file of this run, after the suite
    was written to that file.  The call is always for the path of the
    database, without an evaluation log, with the on-disk workspace
    folders as additional packs and with the view's query storage
    directory. *)
Theorem createQueryRun_arguments
    (dbPath : string) (queryPath : option string) (generateEvalLog : bool)
    (additionalPacks : list string) (storageDir : string) :
  EvCreateQueryRun dbPath queryPath generateEvalLog additionalPacks storageDir
    ∈ trace runQuery ->
  dbPath = fsPath (databaseUri databaseItem) /\
  generateEvalLog = false /\
  additionalPacks = getOnDiskWorkspaceFolders host /\
  storageDir = queryStorageDir /\
  exists qlpacks suiteFile query,
    qlpackOfDatabase host databaseItem = Returned qlpacks /\
    file host ".qls" = Returned suiteFile /\
    writeFile host suiteFile
      (dump host (YSeq (suiteYaml databaseItem qlpacks))) "utf8" = Returned tt /\
    EvResolveQueriesInSuite suiteFile (getOnDiskWorkspaceFolders host)
      ∈ trace runQuery /\
    resolveQueriesInSuite host suiteFile (getOnDiskWorkspaceFolders host)
      = Returned [query] /\
    queryPath = Some query.
Proof.
  intros Hin.
  assert (Forall
            (fun e =>
               e = EvCreateQueryRun dbPath queryPath generateEvalLog
                     additionalPacks storageDir ->
               dbPath = fsPath (databaseUri databaseItem) /\
               generateEvalLog = false /\
               additionalPacks = getOnDiskWorkspaceFolders host /\
               storageDir = queryStorageDir /\
               exists qlpacks suiteFile query,
                 qlpackOfDatabase host databaseItem = Returned qlpacks /\
                 file host ".qls" = Returned suiteFile /\
                 writeFile host suiteFile
                   (dump host (YSeq (suiteYaml databaseItem qlpacks))) "utf8"
                   = Returned tt /\
                 resolveQueriesInSuite host suiteFile
                   (getOnDiskWorkspaceFolders host) = Returned [query] /\
                 queryPath = Some query)
            (trace runQuery)) as Hall.
  { apply runQuery_events; try done.
    intros qlpacks suiteFile query Hpacks Hfile Hwrite Hresolve
      [= <- <- <- <- <-].
    do 4 (split; [reflexivity|]). by exists qlpacks, suiteFile, query. }
  eapply Forall_forall in Hall; [|exact Hin].
  destruct (Hall eq_refl)
    as (-> & -> & -> & -> & qlpacks & suiteFile & query
        & Hpacks & Hfile & Hwrite & Hresolve & ->).
  do 4 (split; [reflexivity|]). exists qlpacks, suiteFile, query.
  do 3 (split; [assumption|]). split; [|by split].
  unfold Editor.runQuery. run.
  rewrite Hpacks. run. rewrite Hfile. run. rewrite Hwrite. run.
  rewrite Hresolve. run.
  do 3 apply list_elem_of_further. apply list_elem_of_here.
Qed.

(** X7. Queries are resolved only from the suite file that was just
    written: when [resolveQueriesInSuite] is called, its argument is the
    temporary [.qls] file, the write of the suite to that file has
    succeeded, that file is the only one written, and the additional
    packs are the on-disk workspace folders. *)
Theorem resolveQueriesInSuite_reads_written_suite
    (suite : string) (additionalPacks : list string) :
  EvResolveQueriesInSuite suite additionalPacks ∈ trace runQuery ->
  additionalPacks = getOnDiskWorkspaceFolders host /\
  exists qlpacks,
    qlpackOfDatabase host databaseItem = Returned qlpacks /\
    file host ".qls" = Returned suite /\
    writeFile host suite
      (dump host (YSeq (suiteYaml databaseItem qlpacks))) "utf8" = Returned tt /\
    filesWritten (trace runQuery) =
      [(suite, dump host (YSeq (suiteYaml databaseItem qlpacks)), "utf8")].
Proof.
  intros Hin.
  assert (Forall
            (fun e =>
               e = EvResolveQueriesInSuite suite additionalPacks ->
               additionalPacks = getOnDiskWorkspaceFolders host /\
               exists qlpacks,
                 qlpackOfDatabase host databaseItem = Returned qlpacks /\
                 file host ".qls" = Returned suite /\
                 writeFile host suite
                   (dump host (YSeq (suiteYaml databaseItem qlpacks))) "utf8"
                   = Returned tt)
            (trace runQuery)) as Hall.
  { apply runQuery_events; try done.
    intros qlpacks suiteFile Hpacks Hfile Hwrite [= <- <-]. eauto. }
  eapply Forall_forall in Hall; [|exact Hin].
  destruct (Hall eq_refl) as (Hfolders & qlpacks & Hpacks & Hfile & Hwrite).
  split; [exact Hfolders|]. exists qlpacks.
  split; [exact Hpacks|]. split; [exact Hfile|]. split; [exact Hwrite|].
  by apply runQuery_filesWritten.
Qed.

(** X9. [runQuery] returns a completed query only as the result of
    evaluating the run that was created for the single resolved query,
    after every step before it succeeded; it returns [undefined] only
    when the suite resolved to a number of queries other than one. *)
Theorem runQuery_returns :
  (forall completed,
     outcome runQuery = Returned (Some completed) <->
     exists qlpacks suiteFile query queryRun,
       qlpackOfDatabase host databaseItem = Returned qlpacks /\
       file host ".qls" = Returned suiteFile /\
       writeFile host suiteFile
         (dump host (YSeq (suiteYaml databaseItem qlpacks))) "utf8"
         = Returned tt /\
       resolveQueriesInSuite host suiteFile (getOnDiskWorkspaceFolders host)
         = Returned [query] /\
       createQueryRun host (fsPath (databaseUri databaseItem)) (Some query)
         false (getOnDiskWorkspaceFolders host) queryStorageDir
         = Returned queryRun /\
       snd (evaluate host queryRun) = Returned completed) /\
  (outcome runQuery = Returned None <->
   exists qlpacks suiteFile queries,
     qlpackOfDatabase host databaseItem = Returned qlpacks /\
     file host ".qls" = Returned suiteFile /\
     writeFile host suiteFile
       (dump host (YSeq (suiteYaml databaseItem qlpacks))) "utf8"
       = Returned tt /\
     resolveQueriesInSuite host suiteFile (getOnDiskWorkspaceFolders host)
       = Returned queries /\
     length queries ≠ 1%nat).
Proof.
  split; [intros completed|]; split.
  - unfold Editor.runQuery. run.
    answer as qlpacks; [|done]. answer as suiteFile; [|done].
    answer as written; [|done]. destruct written.
    answer as queries; [|done].
    case_bool_decide as Hlen; run; [|done].
    destruct queries as [|query [|? ?]]; simpl in Hlen; try discriminate.
    simpl. answer as queryRun; [|done].
    rewrite evaluateQuery_exact.
    destruct (evaluate host queryRun).2 as [completed'|e] eqn:Hevaluate;
      run; [|done].
    intros [= <-]. exists qlpacks, suiteFile, query, queryRun. by repeat split.
  - intros (qlpacks & suiteFile & query & queryRun
            & Hpacks & Hfile & Hwrite & Hresolve & Hcreate & Hevaluate).
    unfold Editor.runQuery. run.
    rewrite Hpacks. run. rewrite Hfile. run. rewrite Hwrite. run.
    rewrite Hresolve. run. rewrite Hcreate. run.
    rewrite evaluateQuery_exact, Hevaluate. by run.
  - unfold Editor.runQuery. run.
    answer as qlpacks; [|done]. answer as suiteFile; [|done].
    answer as written; [|done]. destruct written.
    answer as queries; [|done].
    case_bool_decide as Hlen; run.
    + answer as queryRun; [|done].
      rewrite evaluateQuery_exact.
      by destruct (evaluate host queryRun).2; run.
    + intros _. exists qlpacks, suiteFile, queries. by repeat split.
  - intros (qlpacks & suiteFile & queries
            & Hpacks & Hfile & Hwrite & Hresolve & Hlen).
    by rewrite (runQuery_not_one_query Hpacks Hfile Hwrite Hresolve Hlen).
Qed.

(** X8. A results message is posted at most once, and only for usages
    that were decoded from the BQRS file of the completed query: the
    file is the [bqrsPath] of what [runQuery] returned, it holds exactly
    one result set, and the usages are
    [decodeBqrsToExternalApiUsages] of what [bqrsDecode] returned for
    that set. *)
Theorem resultsPosted_decoded (usages : list ExternalApiUsage) :
  usages ∈ resultsPosted (trace loadExternalApiUsages) ->
  resultsPosted (trace loadExternalApiUsages) = [usages] /\
  exists completed info resultSet chunk,
    outcome runQuery = Returned (Some completed) /\
    bqrsInfo host (bqrsPath (outputDir completed)) = Returned info /\
    result_sets info = [resultSet] /\
    bqrsDecode host (bqrsPath (outputDir completed)) (name resultSet)
      = Returned chunk /\
    usages = decodeBqrsToExternalApiUsages host chunk.
Proof.
  pose proof loadExternalApiUsages_cases as Hcases.
  pose proof runQuery_resultsPosted as Hnone.
  destruct (outcome runQuery) as [[completed|]|e] eqn:Hquery.
  - cbv zeta in Hcases.
    pose proof (getResults_resultsPosted (bqrsPath (outputDir completed)))
      as Hnone'.
    destruct (outcome (getResults host (bqrsPath (outputDir completed))))
      as [[chunk|]|e] eqn:Hresults; rewrite Hcases; simpl;
      rewrite resultsPosted_app, resultsPosted_progress, resultsPosted_app,
        Hnone, Hnone'; simpl.
    + intros ->%list_elem_of_singleton. split; [done|].
      apply getResults_chunk_decoded in Hresults
        as (info & resultSet & Hinfo & Hsets & Hdecode).
      by exists completed, info, resultSet, chunk.
    + by intros ?%elem_of_nil.
    + by intros ?%elem_of_nil.
  - rewrite Hcases. simpl. rewrite resultsPosted_app, Hnone. simpl.
    by intros ?%elem_of_nil.
  - rewrite Hcases. simpl. rewrite resultsPosted_app, Hnone. simpl.
    by intros ?%elem_of_nil.
Qed.

(** X6. When the query run completed but its BQRS file does not hold
    exactly one result set, [loadExternalApiUsages] logs the number of
    result sets and clears the progress: nothing is decoded and no
    results message is posted. *)
Theorem loadExternalApiUsages_needs_exactly_one_result_set
    (completed : CoreCompletedQuery) (info : BQRSInfo) :
  outcome runQuery = Returned (Some completed) ->
  bqrsInfo host (bqrsPath (outputDir completed)) = Returned info ->
  length (result_sets info) ≠ 1%nat ->
  loadExternalApiUsages =
    (trace runQuery
       ++ [ EvPostMessage (ShowProgressMessage 1100 1500 "Loading results");
            EvBqrsInfo (bqrsPath (outputDir completed));
            EvLog ("Expected exactly one result set, got "
                     +:+ pretty (length (result_sets info)));
            clearMessage ],
     Returned tt) /\
  resultsPosted (trace loadExternalApiUsages) = [].
Proof.
  intros Hquery Hinfo Hlen.
  pose proof loadExternalApiUsages_cases as Hcases.
  rewrite Hquery in Hcases. cbv zeta in Hcases.
  rewrite (getResults_not_single _ Hinfo Hlen) in Hcases. simpl in Hcases.
  rewrite Hcases. split; [done|]. simpl.
  by rewrite resultsPosted_app, runQuery_resultsPosted.
Qed.

(** *** Progress *)

(** X4. Every progress message that a load posts has the maximum step
    1500, except the message that clears the progress (step 0, maximum
    0, empty text): the maximum that the query run reports is always
    replaced. *)
Theorem progress_maxStep :
  Forall (fun p : Z * Z * string => p.1.2 = 1500%Z \/ p = (0%Z, 0%Z, ""))
         (progressPosted (trace loadExternalApiUsages)).
Proof.
  apply Forall_omap_Some, loadExternalApiUsages_events.
  - apply runQuery_events; try done.
    intros queryRun update _ p [= <-]. by left.
  - intros bqrsPath. apply getResults_events; try done.
    intros p [= <-]. by left.
  - intros p [= <-]. by left.
  - intros p [= <-]. by left.
  - done.
  - intros p [= <-]. by right.
  - done.
Qed.

(** X5. When the steps that the query run reports lie between 0 and
    1000, the step of every progress message that a load posts lies
    between 0 and the maximum step of that message. *)
Theorem progress_within_bounds :
  (forall queryRun update,
     update ∈ fst (evaluate host queryRun) ->
     (0 <= step update <= 1000)%Z) ->
  Forall (fun p : Z * Z * string => (0 <= p.1.1 <= p.1.2)%Z)
         (progressPosted (trace loadExternalApiUsages)).
Proof.
  intros Hsteps.
  apply Forall_omap_Some, loadExternalApiUsages_events.
  - apply runQuery_events; try done.
    intros queryRun update Hin p [= <-]. simpl.
    specialize (Hsteps queryRun update Hin). lia.
  - intros bqrsPath. apply getResults_events; try done.
    intros p [= <-]. simpl. lia.
  - intros p [= <-]. simpl. lia.
  - intros p [= <-]. simpl. lia.
  - done.
  - intros p [= <-]. simpl. lia.
  - done.
Qed.

(** *** Which results are read *)

Lemma readsResults_app file (tr1 tr2 : list Event) :
  readsResults file (tr1 ++ tr2) <->
  readsResults file tr1 \/ readsResults file tr2.
Proof.
  unfold readsResults. setoid_rewrite elem_of_app. split.
  - intros [[?|?]|[resultSet [?|?]]]; eauto.
  - intros [[?|[resultSet ?]]|[?|[resultSet ?]]]; eauto.
Qed.

Lemma readsResults_Forall file (tr : list Event) :
  Forall (fun e => e ≠ EvBqrsInfo file /\
                   forall resultSet, e ≠ EvBqrsDecode file resultSet) tr ->
  ~ readsResults file tr.
Proof.
  intros Hall [Hin|[resultSet Hin]];
    eapply Forall_forall in Hall; [|exact Hin| |exact Hin];
    destruct Hall as [Hinfo Hdecode];
    [by apply Hinfo | by apply (Hdecode resultSet)].
Qed.

Lemma runQuery_reads_no_results file : ~ readsResults file (trace runQuery).
Proof. apply readsResults_Forall, runQuery_events; done. Qed.

Lemma getResults_reads_its_path bqrsPath file :
  readsResults file (trace (getResults host bqrsPath)) -> file = bqrsPath.
Proof.
  assert (Forall (fun e => (e = EvBqrsInfo file \/
                            exists resultSet, e = EvBqrsDecode file resultSet) ->
                           file = bqrsPath)
                 (trace (getResults host bqrsPath))) as Hall.
  { apply getResults_events.
    - by intros [[= ->]|[? [=]]].
    - by intros n [[=]|[? [=]]].
    - by intros [[=]|[? [=]]].
    - by intros info resultSet _ _ [[=]|[? [= -> _]]]. }
  intros [Hin|[resultSet Hin]];
    eapply Forall_forall in Hall; try exact Hin; apply Hall; eauto.
Qed.

(** X10. A load reads no BQRS file but the one of the completed query:
    whenever [bqrsInfo] or [bqrsDecode] is called, [runQuery] has
    returned a completed query and the file is its [bqrsPath]. *)
Theorem results_read_after_query (file : string) :
  readsResults file (trace loadExternalApiUsages) ->
  exists completed,
    outcome runQuery = Returned (Some completed) /\
    file = bqrsPath (outputDir completed).
Proof.
  pose proof loadExternalApiUsages_cases as Hcases.
  pose proof (@runQuery_reads_no_results file) as Hquery.
  destruct (outcome runQuery) as [[completed|]|e].
  - intros Hread. exists completed. split; [done|].
    apply (@getResults_reads_its_path (bqrsPath (outputDir completed)) file).
    cbv zeta in Hcases.
    destruct (outcome (getResults host (bqrsPath (outputDir completed))))
      as [[chunk|]|e]; rewrite Hcases in Hread; simpl in Hread;
      apply readsResults_app in Hread as [Hread|Hread]; try done;
      change (?x :: ?l ++ ?tail) with ([x] ++ l ++ tail) in Hread;
      apply readsResults_app in Hread as [Hread|Hread];
      try (by apply readsResults_Forall in Hread; [|by repeat constructor]);
      apply readsResults_app in Hread as [Hread|Hread]; try done;
      by apply readsResults_Forall in Hread; [|by repeat constructor].
  - rewrite Hcases. simpl. intros [Hread|Hread]%readsResults_app; [done|].
    by apply readsResults_Forall in Hread; [|by repeat constructor].
  - rewrite Hcases. simpl. intros [Hread|Hread]%readsResults_app; [done|].
    by apply readsResults_Forall in Hread; [|by repeat constructor].
Qed.

End EditorProperties.

(** *** The properties on the concrete host *)

Section EditorExamples.
Import Js Editor EditorExample.

Example javaHost_posts :
  trace (loadExternalApiUsages javaHost javaDatabase "/tmp/queries") =
    [ EvQlpackOfDatabase javaDatabase;
      EvFile ".qls";
      EvWriteFile "/tmp/suite.qls"
        (renderYaml (YSeq [suiteEntry javaDatabase "codeql/java-all";
                           suiteEntry javaDatabase "codeql/java-queries"]))
        "utf8";
      EvResolveQueriesInSuite "/tmp/suite.qls" [];
      EvCreateQueryRun "/a/b/c/src.zip"
        (Some "/home/github/codeql/java/ql/src/Telemetry/FetchExternalAPIs.ql")
        false [] "/tmp/queries";
      EvEvaluate {| queryRun_outputDir := outputOfRun |} "/tmp/queries/query.log";
      EvPostMessage (ShowProgressMessage 500 1500 "Running query");
      EvPostMessage (ShowProgressMessage 1100 1500 "Loading results");
      EvBqrsInfo "/tmp/queries/results.bqrs";
      EvPostMessage (ShowProgressMessage 1200 1500 "Decoding results");
      EvBqrsDecode "/tmp/queries/results.bqrs" "#select";
      EvPostMessage (ShowProgressMessage 1450 1500 "Finalizing results");
      EvPostMessage (SetExternalApiUsagesMessage
                       ["java.io.PrintStream#println(String)"]);
      EvPostMessage (ShowProgressMessage 0 0 "") ].
Proof. reflexivity. Qed.

Lemma loadExternalApiUsages_shows_decoded_results_witness :
  outcome (runQuery javaHost javaDatabase "/tmp/queries")
    = Returned (Some completedRun) /\
  outcome (getResults javaHost (bqrsPath (outputDir completedRun)))
    = Returned (Some printlnChunk) /\
  outcome (loadExternalApiUsages javaHost javaDatabase "/tmp/queries")
    = Returned tt /\
  resultsPosted (trace (loadExternalApiUsages javaHost javaDatabase "/tmp/queries"))
    = [["java.io.PrintStream#println(String)"]].
Proof.
  split; [reflexivity|]. split; [reflexivity|].
  destruct (@loadExternalApiUsages_shows_decoded_results
              Usage Chunk javaHost javaDatabase "/tmp/queries"
              completedRun printlnChunk)
    as (Hreturns & Hposted & _); [reflexivity | reflexivity |].
  split; [exact Hreturns | exact Hposted].
Defined.

Lemma getResults_reads_through_cli_witness :
  bqrsInfo javaHost "/tmp/queries/results.bqrs" = Returned selectInfo /\
  length (result_sets selectInfo) = 1%nat /\
  outcome (getResults javaHost "/tmp/queries/results.bqrs")
    = Returned (Some printlnChunk).
Proof.
  split; [reflexivity|]. split; [reflexivity|].
  destruct (@getResults_reads_through_cli
              Usage Chunk javaHost "/tmp/queries/results.bqrs")
    as (_ & Hinfo).
  destruct (Hinfo selectInfo) as (Hone & _); [reflexivity|].
  destruct Hone as (resultSet & Hsets & Houtcome & _); [reflexivity|].
  injection Hsets as <-. exact Houtcome.
Defined.

Lemma runQuery_needs_exactly_one_query_witness :
  resolveQueriesInSuite hostWithoutQuery "/tmp/suite.qls" [] = Returned [] /\
  outcome (runQuery hostWithoutQuery javaDatabase "/tmp/queries")
    = Returned None /\
  createsQueryRun (trace (runQuery hostWithoutQuery javaDatabase "/tmp/queries"))
    = false /\
  resultsPosted
    (trace (loadExternalApiUsages hostWithoutQuery javaDatabase "/tmp/queries"))
    = [].
Proof.
  split; [reflexivity|].
  destruct (@runQuery_needs_exactly_one_query
              Usage Chunk hostWithoutQuery javaDatabase "/tmp/queries"
              javaPacks "/tmp/suite.qls" [])
    as (Hout & _ & Hcreate & _ & _ & Hposted & _);
    [reflexivity | reflexivity | reflexivity | reflexivity | simpl; lia |].
  split; [exact Hout|]. split; [exact Hcreate | exact Hposted].
Defined.

Lemma runQuery_writes_suite_witness :
  qlpackOfDatabase javaHost javaDatabase = Returned javaPacks /\
  file javaHost ".qls" = Returned "/tmp/suite.qls" /\
  suiteYaml javaDatabase javaPacks =
    [ suiteEntry javaDatabase "codeql/java-all";
      suiteEntry javaDatabase "codeql/java-queries" ] /\
  filesWritten (trace (runQuery javaHost javaDatabase "/tmp/queries")) =
    [("/tmp/suite.qls",
      renderYaml (YSeq (suiteYaml javaDatabase javaPacks)), "utf8")].
Proof.
  split; [reflexivity|]. split; [reflexivity|].
  destruct (@runQuery_writes_suite
              Usage Chunk javaHost javaDatabase "/tmp/queries"
              javaPacks "/tmp/suite.qls")
    as (Hwritten & Hsuite & _); [reflexivity | reflexivity |].
  split; [exact Hsuite | exact Hwritten].
Defined.

Import EditorTraces EditorFailures.

Example cancelled_run_is_reported :
  trace (loadExternalApiUsages hostWithCancelledRun javaDatabase "/tmp/queries") =
    [ EvQlpackOfDatabase javaDatabase;
      EvFile ".qls";
      EvWriteFile "/tmp/suite.qls"
        (renderYaml (YSeq (suiteYaml javaDatabase javaPacks))) "utf8";
      EvResolveQueriesInSuite "/tmp/suite.qls" [];
      EvCreateQueryRun "/a/b/c/src.zip"
        (Some "/home/github/codeql/java/ql/src/Telemetry/FetchExternalAPIs.ql")
        false [] "/tmp/queries";
      EvEvaluate {| queryRun_outputDir := outputOfRun |} "/tmp/queries/query.log";
      EvPostMessage (ShowProgressMessage 10 1500 "Compiling");
      EvShowAndLogException
        "Failed to load external APi usages: Query run cancelled" ].
Proof. reflexivity. Qed.

Lemma createQueryRun_arguments_witness :
  EvCreateQueryRun "/a/b/c/src.zip"
    (Some "/home/github/codeql/java/ql/src/Telemetry/FetchExternalAPIs.ql")
    false [] "/tmp/queries"
    ∈ trace (runQuery javaHost javaDatabase "/tmp/queries") /\
  exists qlpacks suiteFile query,
    qlpackOfDatabase javaHost javaDatabase = Returned qlpacks /\
    file javaHost ".qls" = Returned suiteFile /\
    writeFile javaHost suiteFile
      (dump javaHost (YSeq (suiteYaml javaDatabase qlpacks))) "utf8"
      = Returned tt /\
    EvResolveQueriesInSuite suiteFile (getOnDiskWorkspaceFolders javaHost)
      ∈ trace (runQuery javaHost javaDatabase "/tmp/queries") /\
    resolveQueriesInSuite javaHost suiteFile (getOnDiskWorkspaceFolders javaHost)
      = Returned [query] /\
    Some "/home/github/codeql/java/ql/src/Telemetry/FetchExternalAPIs.ql"
      = Some query.
Proof.
  assert (EvCreateQueryRun "/a/b/c/src.zip"
            (Some "/home/github/codeql/java/ql/src/Telemetry/FetchExternalAPIs.ql")
            false [] "/tmp/queries"
            ∈ trace (runQuery javaHost javaDatabase "/tmp/queries")) as Hin.
  { vm_compute. do 4 apply list_elem_of_further. apply list_elem_of_here. }
  split; [exact Hin|].
  destruct (@createQueryRun_arguments Usage Chunk javaHost javaDatabase
              "/tmp/queries" _ _ _ _ _ Hin)
    as (_ & _ & _ & _ & Hquery).
  exact Hquery.
Defined.

Lemma resolveQueriesInSuite_reads_written_suite_witness :
  EvResolveQueriesInSuite "/tmp/suite.qls" []
    ∈ trace (runQuery javaHost javaDatabase "/tmp/queries") /\
  exists qlpacks,
    qlpackOfDatabase javaHost javaDatabase = Returned qlpacks /\
    file javaHost ".qls" = Returned "/tmp/suite.qls" /\
    writeFile javaHost "/tmp/suite.qls"
      (dump javaHost (YSeq (suiteYaml javaDatabase qlpacks))) "utf8"
      = Returned tt /\
    filesWritten (trace (runQuery javaHost javaDatabase "/tmp/queries")) =
      [("/tmp/suite.qls",
        dump javaHost (YSeq (suiteYaml javaDatabase qlpacks)), "utf8")].
Proof.
  assert (EvResolveQueriesInSuite "/tmp/suite.qls" []
            ∈ trace (runQuery javaHost javaDatabase "/tmp/queries")) as Hin.
  { vm_compute. do 3 apply list_elem_of_further. apply list_elem_of_here. }
  split; [exact Hin|].
  exact (proj2 (@resolveQueriesInSuite_reads_written_suite
                  Usage Chunk javaHost javaDatabase "/tmp/queries" _ _ Hin)).
Defined.

Lemma resultsPosted_decoded_witness :
  ["java.io.PrintStream#println(String)"]
    ∈ resultsPosted
        (trace (loadExternalApiUsages javaHost javaDatabase "/tmp/queries")) /\
  resultsPosted
    (trace (loadExternalApiUsages javaHost javaDatabase "/tmp/queries"))
    = [["java.io.PrintStream#println(String)"]].
Proof.
  assert (["java.io.PrintStream#println(String)"]
            ∈ resultsPosted
                (trace (loadExternalApiUsages javaHost javaDatabase
                          "/tmp/queries"))) as Hin.
  { vm_compute. apply list_elem_of_here. }
  split; [exact Hin|].
  exact (proj1 (@resultsPosted_decoded
                  Usage Chunk javaHost javaDatabase "/tmp/queries" _ Hin)).
Defined.

Lemma loadExternalApiUsages_needs_exactly_one_result_set_witness :
  outcome (runQuery hostWithTwoResultSets javaDatabase "/tmp/queries")
    = Returned (Some completedRun) /\
  bqrsInfo hostWithTwoResultSets "/tmp/queries/results.bqrs"
    = Returned twoSetsInfo /\
  length (result_sets twoSetsInfo) = 2%nat /\
  resultsPosted
    (trace (loadExternalApiUsages hostWithTwoResultSets javaDatabase
              "/tmp/queries")) = [].
Proof.
  split; [reflexivity|]. split; [reflexivity|]. split; [reflexivity|].
  refine (proj2 (@loadExternalApiUsages_needs_exactly_one_result_set
                   Usage Chunk hostWithTwoResultSets javaDatabase "/tmp/queries"
                   completedRun twoSetsInfo _ _ _)).
  - reflexivity.
  - reflexivity.
  - simpl. lia.
Defined.

Lemma progress_within_bounds_witness :
  (forall queryRun update,
     update ∈ fst (evaluate javaHost queryRun) ->
     (0 <= step update <= 1000)%Z) /\
  Forall (fun p : Z * Z * string => (0 <= p.1.1 <= p.1.2)%Z)
         (progressPosted
            (trace (loadExternalApiUsages javaHost javaDatabase "/tmp/queries"))).
Proof.
  assert (forall queryRun update,
            update ∈ fst (evaluate javaHost queryRun) ->
            (0 <= step update <= 1000)%Z) as Hsteps.
  { intros queryRun update Hin. simpl in Hin.
    apply list_elem_of_singleton in Hin as ->. simpl. lia. }
  split; [exact Hsteps|].
  exact (@progress_within_bounds Usage Chunk javaHost javaDatabase
           "/tmp/queries" Hsteps).
Defined.

Lemma results_read_after_query_witness :
  readsResults "/tmp/queries/results.bqrs"
    (trace (loadExternalApiUsages javaHost javaDatabase "/tmp/queries")) /\
  exists completed,
    outcome (runQuery javaHost javaDatabase "/tmp/queries")
      = Returned (Some completed) /\
    "/tmp/queries/results.bqrs" = bqrsPath (outputDir completed).
Proof.
  assert (readsResults "/tmp/queries/results.bqrs"
            (trace (loadExternalApiUsages javaHost javaDatabase "/tmp/queries")))
    as Hread.
  { left. vm_compute. do 8 apply list_elem_of_further. apply list_elem_of_here. }
  split; [exact Hread|].
  exact (@results_read_after_query Usage Chunk javaHost javaDatabase
           "/tmp/queries" _ Hread).
Defined.

Lemma getResults_outcomes_witness :
  bqrsInfo hostWithUnreadableResults "/tmp/queries/results.bqrs"
    = Thrown "bqrs info: file not found" /\
  outcome (getResults hostWithUnreadableResults "/tmp/queries/results.bqrs")
    = Thrown "bqrs info: file not found".
Proof.
  split; [reflexivity|].
  apply (proj1 (@getResults_outcomes Usage Chunk hostWithUnreadableResults
                  "/tmp/queries/results.bqrs")).
  left. reflexivity.
Defined.

End EditorExamples.

(** ** The generated message class *)

Section ProtoProperties.
Import Proto.

(** C8. [RemoteRepositorySchema] has the type name
    ["docs.RemoteRepositorySchema"] and declares exactly two fields,
    both scalar strings: [owner] with number 1 and [name] with number
    2.  An instance constructed without data, or from data that sets
    no field, has the empty string in both. *)
Theorem RemoteRepositorySchema_declaration :
  typeName = "docs.RemoteRepositorySchema" /\
  fields = [ {| FieldInfo.no := 1; FieldInfo.name := "owner";
                FieldInfo.kind := "scalar"; FieldInfo.T := ScalarType_STRING |};
             {| FieldInfo.no := 2; FieldInfo.name := "name";
                FieldInfo.kind := "scalar"; FieldInfo.T := ScalarType_STRING |} ] /\
  length fields = 2%nat /\
  Forall (fun f => FieldInfo.kind f = "scalar"
                    /\ FieldInfo.T f = ScalarType_STRING) fields /\
  (forall f, f ∈ fields ->
     get_field (new_RemoteRepositorySchema None) (FieldInfo.name f) = Some "") /\
  owner (new_RemoteRepositorySchema None) = "" /\
  name (new_RemoteRepositorySchema None) = "" /\
  new_RemoteRepositorySchema
    (Some {| partial_owner := None; partial_name := None |})
    = new_RemoteRepositorySchema None.
Proof.
  repeat split.
  - repeat constructor.
  - intros f Hf. unfold fields in Hf.
    repeat (apply elem_of_cons in Hf as [->|Hf]; [reflexivity|]).
    by apply elem_of_nil in Hf.
Qed.

End ProtoProperties.

(** ** String suffixes *)

Section Suffixes.
Import Js.

Lemma append_String (c : Ascii.ascii) (s1 s2 : string) :
  String c s1 +:+ s2 = String c (s1 +:+ s2).
Proof. reflexivity. Qed.

Lemma append_empty (s : string) : "" +:+ s = s.
Proof. reflexivity. Qed.

Lemma substring_all (s : string) :
  String.substring 0 (String.length s) s = s.
Proof. induction s as [|c s IH]; simpl; [done|by rewrite IH]. Qed.

Lemma substring_split (s : string) (k : nat) :
  (k ≤ String.length s)%nat ->
  s = String.substring 0 k s +:+ String.substring k (String.length s - k) s.
Proof.
  revert k. induction s as [|c s IH]; intros [|k] Hk; simpl in *; try lia.
  - reflexivity.
  - by rewrite append_empty, substring_all.
  - rewrite append_String, <- IH by lia. reflexivity.
Qed.

Lemma substring_0_length (s : string) (k : nat) :
  (k ≤ String.length s)%nat -> String.length (String.substring 0 k s) = k.
Proof.
  revert k. induction s as [|c s IH]; intros [|k] Hk; simpl in *; try lia.
  rewrite IH; lia.
Qed.

Lemma substring_append_skip (pre s : string) (k m : nat) :
  String.substring (String.length pre + k) m (pre +:+ s)
    = String.substring k m s.
Proof.
  induction pre as [|c pre IH]; [done|].
  rewrite append_String. exact IH.
Qed.

Lemma length_append (s1 s2 : string) :
  String.length (s1 +:+ s2) = (String.length s1 + String.length s2)%nat.
Proof.
  induction s1 as [|c s1 IH]; [done|].
  rewrite append_String. simpl. by rewrite IH.
Qed.

(** [s.endsWith(suffix)] holds exactly when [s] is something followed
    by [suffix]. *)
Lemma endsWith_spec (s suffix : string) :
  endsWith s suffix = true <-> exists pre, s = pre +:+ suffix.
Proof.
  unfold endsWith. split.
  - case_decide as Hle; [|done]. intros Heq%bool_decide_eq_true.
    exists (String.substring 0 (String.length s - String.length suffix) s).
    pose proof (@substring_split s (String.length s - String.length suffix))
      as Hsplit.
    replace (String.length s - (String.length s - String.length suffix))%nat
      with (String.length suffix) in Hsplit by lia.
    rewrite Heq in Hsplit. apply Hsplit. lia.
  - intros [pre ->]. rewrite length_append.
    rewrite decide_True by lia. apply bool_decide_eq_true.
    replace (String.length pre + String.length suffix - String.length suffix)%nat
      with (String.length pre + 0)%nat by lia.
    rewrite substring_append_skip. apply substring_all.
Qed.

(** A name that ends in [.qll] does not end in [.ql]. *)
Lemma endsWith_qll_not_ql (s : string) :
  endsWith s ".qll" = true -> endsWith s ".ql" = false.
Proof.
  intros [pre ->]%endsWith_spec. unfold endsWith.
  rewrite length_append. simpl String.length.
  rewrite decide_True by lia. apply bool_decide_eq_false.
  replace (String.length pre + 4 - 3)%nat with (String.length pre + 1)%nat by lia.
  rewrite substring_append_skip. simpl. discriminate.
Qed.

End Suffixes.

(** ** Determining the selected query *)

Section SelectedQueryProperties.
Import Js SelectedQuery.

Variable Position : Type.
Variable selectedPosition : Position.

(** C3. For a normal run ([quickEval] false) a URI whose path ends
    in [.ql] gives its file-system path as [queryPath] and no
    [quickEvalPosition]; every other URI, a [.qll] file included, is
    rejected with 'The selected resource is not a CodeQL query file'.
    For a quick evaluation both [.ql] and [.qll] files are accepted,
    and every other URI is rejected with 'The selected resource is not
    a CodeQL file'. *)
Theorem determineSelectedQuery_by_extension (uri : Uri) :
  (endsWith (path uri) ".ql" = true ->
     determineSelectedQuery selectedPosition uri false
       = Returned {| queryPath := fsPath uri; quickEvalPosition := None |}) /\
  (endsWith (path uri) ".ql" = false ->
     determineSelectedQuery selectedPosition uri false
       = Thrown "The selected resource is not a CodeQL query file") /\
  (endsWith (path uri) ".qll" = true ->
     determineSelectedQuery selectedPosition uri false
       = Thrown "The selected resource is not a CodeQL query file") /\
  (endsWith (path uri) ".ql" = true \/ endsWith (path uri) ".qll" = true ->
     exists q,
       determineSelectedQuery selectedPosition uri true = Returned q /\
       queryPath q = fsPath uri) /\
  (endsWith (path uri) ".ql" = false ->
   endsWith (path uri) ".qll" = false ->
     determineSelectedQuery selectedPosition uri true
       = Thrown "The selected resource is not a CodeQL file").
Proof.
  unfold determineSelectedQuery. repeat split.
  - by intros ->.
  - by intros ->.
  - intros Hqll. by rewrite (endsWith_qll_not_ql _ Hqll).
  - intros Hext.
    assert (endsWith (path uri) ".ql" || endsWith (path uri) ".qll" = true)
      as -> by (destruct Hext as [-> | ->]; [done | apply orb_true_r]).
    eauto.
  - by intros -> ->.
Qed.

End SelectedQueryProperties.

Lemma determineSelectedQuery_by_extension_witness :
  SelectedQuery.determineSelectedQuery tt (Js.Uri_file "/tmp/queryname.ql") false
    = Js.Returned {| SelectedQuery.queryPath := "/tmp/queryname.ql";
                     SelectedQuery.quickEvalPosition := None |} /\
  SelectedQuery.determineSelectedQuery tt (Js.Uri_file "/tmp/queryname.qll") false
    = Js.Thrown "The selected resource is not a CodeQL query file" /\
  SelectedQuery.determineSelectedQuery tt (Js.Uri_file "/tmp/queryname.txt") true
    = Js.Thrown "The selected resource is not a CodeQL file".
Proof.
  split; [|split].
  - apply (determineSelectedQuery_by_extension tt (Js.Uri_file "/tmp/queryname.ql")).
    reflexivity.
  - apply (determineSelectedQuery_by_extension tt (Js.Uri_file "/tmp/queryname.qll")).
    reflexivity.
  - apply (determineSelectedQuery_by_extension tt (Js.Uri_file "/tmp/queryname.txt"));
      reflexivity.
Defined.

(** ** Finding the source archive *)

Section SourceArchiveProperties.
Import Js SourceArchive.

(** C4. The candidates are, in this order, [src.zip], [src],
    [output/src_archive.zip] and [output/src_archive] under the
    database directory.  [findSourceArchive] returns the first of them
    that exists: the file-system path of the URI it returns is that
    candidate, no candidate before it exists, and it returns nothing
    only when no candidate exists. *)
Theorem findSourceArchive_priority (disk : gset string) (databasePath : string) :
  candidates databasePath =
    [ path_join databasePath "src" +:+ ".zip";
      path_join databasePath "src";
      path_join databasePath "output/src_archive" +:+ ".zip";
      path_join databasePath "output/src_archive" ] /\
  fsPath <$> findSourceArchive disk databasePath
    = snd <$> list_find (fun c => c ∈ disk) (candidates databasePath) /\
  (forall u, findSourceArchive disk databasePath = Some u ->
     fsPath u ∈ disk /\
     exists i, candidates databasePath !! i = Some (fsPath u) /\
               forall j c, (j < i)%nat ->
                           candidates databasePath !! j = Some c -> c ∉ disk) /\
  (findSourceArchive disk databasePath = None ->
     forall c, c ∈ candidates databasePath -> c ∉ disk).
Proof.
  assert (fsPath <$> findSourceArchive disk databasePath
            = snd <$> list_find (fun c => c ∈ disk) (candidates databasePath))
    as Hfirst.
  { unfold findSourceArchive, candidates, relativePaths. simpl.
    unfold pathExists.
    repeat case_bool_decide; repeat case_decide; done. }
  split; [reflexivity|]. split; [exact Hfirst|]. split.
  - intros u Hu. rewrite Hu in Hfirst.
    destruct (list_find _ (candidates databasePath)) as [[i c]|] eqn:Hfind;
      [|done].
    injection Hfirst as ->. simpl.
    apply list_find_Some in Hfind as (Hi & Hc & Hbefore).
    split; [done|]. exists i. split; [done|]. intros j c' Hj Hc'.
    by apply (Hbefore j).
  - intros Hnone. rewrite Hnone in Hfirst.
    destruct (list_find _ (candidates databasePath)) as [[i c]|] eqn:Hfind;
      [done|].
    intros c Hc. by eapply list_find_None, Forall_forall in Hfind.
Qed.

End SourceArchiveProperties.

Lemma findSourceArchive_priority_witness :
  Js.fsPath <$> SourceArchive.findSourceArchive
                  {[ "/db/src.zip"; "/db/src"; "/db/output/src_archive.zip" ]} "/db"
    = Some "/db/src.zip" /\
  Js.fsPath <$> SourceArchive.findSourceArchive
                  {[ "/db/src"; "/db/output/src_archive.zip" ]} "/db"
    = Some "/db/src" /\
  Js.fsPath <$> SourceArchive.findSourceArchive
                  {[ "/db/output/src_archive.zip"; "/db/output/src_archive" ]} "/db"
    = Some "/db/output/src_archive.zip".
Proof.
  split; [|split].
  - rewrite (proj1 (proj2 (findSourceArchive_priority _ "/db"))). reflexivity.
  - rewrite (proj1 (proj2 (findSourceArchive_priority _ "/db"))). reflexivity.
  - rewrite (proj1 (proj2 (findSourceArchive_priority _ "/db"))). reflexivity.
Defined.

(** ** The database manager *)

Section DatabasesProperties.
Import Js Databases.

Variable belongsToSourceArchiveExplorerUri : DatabaseItem -> Uri -> bool.

Lemma removeItem_not_elem (r : ref) (items : list ref) :
  NoDup items -> r ∉ removeItem r items.
Proof.
  induction 1 as [|r' items Hnotin Hnodup IH]; simpl.
  - apply not_elem_of_nil.
  - case_decide as Heq.
    + by subst.
    + apply not_elem_of_cons. by split.
Qed.

Lemma removeItem_other (r r' : ref) (items : list ref) :
  r' ≠ r -> r' ∈ removeItem r items <-> r' ∈ items.
Proof.
  intros Hne. induction items as [|x items IH]; simpl; [done|].
  case_decide as Heq.
  - subst x. rewrite elem_of_cons. split; [by right|by intros [?|?]].
  - rewrite !elem_of_cons, IH. done.
Qed.

Lemma persist_snoc (h : gmap ref DatabaseItem) (items : list ref) r it :
  h !! r = Some it ->
  persist h (items ++ [r]) = persist h items ++ [toPersisted it].
Proof.
  intros Hr. unfold persist. rewrite omap_app. simpl. by rewrite Hr.
Qed.

Lemma persist_renamed (h : gmap ref DatabaseItem) (items : list ref)
    r it newName :
  h !! r = Some it -> r ∈ items ->
  toPersisted (set_name newName it)
    ∈ persist (alter (set_name newName) r h) items.
Proof.
  intros Hr Hin. unfold persist. apply list_elem_of_omap.
  exists r. split; [done|].
  by rewrite lookup_alter_eq, Hr.
Qed.

Lemma not_elem_of_fs_remove (p : string) (d : gset string) :
  p ∉ fs_remove p d.
Proof.
  unfold fs_remove. rewrite elem_of_filter. intros [Hkeep _].
  apply Hkeep. by left.
Qed.

Lemma removeWorkspaceFolder_frame it (st : State) :
  let st' := removeWorkspaceFolder belongsToSourceArchiveExplorerUri it st in
  databaseItems st' = databaseItems st /\ heap st' = heap st /\
  workspaceState st' = workspaceState st /\ fired st' = fired st /\
  storagePath st' = storagePath st /\ disk st' = disk st.
Proof.
  unfold removeWorkspaceFolder.
  by destruct (list_find _ (workspaceFolders st)) as [[i f]|].
Qed.

Lemma deleteContents_frame it (st : State) :
  let st' := deleteContents it st in
  databaseItems st' = databaseItems st /\ heap st' = heap st /\
  workspaceState st' = workspaceState st /\ fired st' = fired st /\
  storagePath st' = storagePath st /\
  workspaceFolders st' = workspaceFolders st.
Proof.
  unfold deleteContents.
  by destruct (isExtensionControlledLocation st (databaseUri it)).
Qed.

Lemma removeDatabaseItem_frame (st : State) r it :
  heap st !! r = Some it ->
  let st' := removeDatabaseItem belongsToSourceArchiveExplorerUri r st in
  databaseItems st' = removeItem r (databaseItems st) /\
  heap st' = heap st /\
  workspaceState st' =
    <["databaseList" := persist (heap st) (removeItem r (databaseItems st))]>
      (workspaceState st) /\
  fired st' = fired st ++ [ {| kind := Remove; item := None |} ] /\
  storagePath st' = storagePath st.
Proof.
  intros Hr. unfold removeDatabaseItem. rewrite Hr. simpl.
  match goal with
  | |- context [deleteContents it ?s] =>
      destruct (deleteContents_frame it s) as (-> & -> & -> & -> & -> & _)
  end.
  match goal with
  | |- context [removeWorkspaceFolder _ it ?s] =>
      destruct (removeWorkspaceFolder_frame it s) as (-> & -> & -> & -> & -> & _)
  end.
  done.
Qed.

(** C5. Every change of the list of database items is persisted and
    announced.  [addDatabaseItem] appends the item, stores the whole
    list under ['databaseList'] (an entry holds the options of an item
    and its URI as a string) and fires [Add]; [removeDatabaseItem]
    takes the item out, stores the shorter list and fires [Remove];
    [renameDatabaseItem] sets the item's name, stores the list, in
    which the entry of the item now has the new [displayName], and
    fires [Rename]. *)
Theorem databaseItems_persisted_and_announced
    (st : State) (r : ref) (it : DatabaseItem) (newName : string) :
  heap st !! r = Some it ->
  (let st' := addDatabaseItem r st in
   databaseItems st' = databaseItems st ++ [r] /\
   workspaceState st' !! "databaseList" = Some (persistedList st') /\
   persistedList st' =
     persistedList st
       ++ [ {| uri := Uri_toString (databaseUri it);
               persisted_options := options it |} ] /\
   fired st' = fired st ++ [ {| kind := Add; item := None |} ]) /\
  (let st' := removeDatabaseItem belongsToSourceArchiveExplorerUri r st in
   databaseItems st' = removeItem r (databaseItems st) /\
   (NoDup (databaseItems st) -> r ∉ databaseItems st') /\
   (forall r', r' ≠ r -> r' ∈ databaseItems st' <-> r' ∈ databaseItems st) /\
   workspaceState st' !! "databaseList" = Some (persistedList st') /\
   persistedList st' = persist (heap st) (removeItem r (databaseItems st)) /\
   fired st' = fired st ++ [ {| kind := Remove; item := None |} ]) /\
  (let st' := renameDatabaseItem r newName st in
   name <$> heap st' !! r = Some (Some newName) /\
   databaseItems st' = databaseItems st /\
   workspaceState st' !! "databaseList" = Some (persistedList st') /\
   (r ∈ databaseItems st ->
      {| uri := Uri_toString (databaseUri it);
         persisted_options :=
           {| ignoreSourceArchive := ignoreSourceArchive (options it);
              dateAdded := dateAdded (options it);
              displayName := Some newName;
              language := language (options it) |} |}
        ∈ persistedList st') /\
   fired st' = fired st ++ [ {| kind := Rename; item := None |} ]).
Proof.
  intros Hr. split; [|split]; simpl.
  - split; [done|]. split; [apply lookup_insert_eq|]. split; [|done].
    unfold persistedList. simpl. by apply persist_snoc.
  - destruct (@removeDatabaseItem_frame st r it Hr) as (Hitems & Hheap & Hstate & Hfired & _).
    split; [exact Hitems|]. rewrite Hitems.
    split; [apply removeItem_not_elem|].
    split; [intros r' Hne; by apply removeItem_other|].
    unfold persistedList. rewrite Hstate, Hheap, Hitems.
    split; [apply lookup_insert_eq|]. by split.
  - split; [by rewrite lookup_alter_eq, Hr|]. split; [done|].
    split; [apply lookup_insert_eq|]. split; [|done].
    intros Hin. unfold persistedList. simpl.
    by apply (persist_renamed _ newName Hr).
Qed.

Lemma removeDatabaseItem_disk (st : State) r it :
  heap st !! r = Some it ->
  disk (removeDatabaseItem belongsToSourceArchiveExplorerUri r st) =
    if isExtensionControlledLocation st (databaseUri it)
    then fs_remove (fsPath (databaseUri it)) (disk st)
    else disk st.
Proof.
  intros Hr. unfold removeDatabaseItem. rewrite Hr. simpl.
  match goal with
  | |- context [removeWorkspaceFolder _ it ?s] =>
      destruct (removeWorkspaceFolder_frame it s)
        as (_ & _ & _ & _ & Hstorage & Hdisk)
  end.
  unfold deleteContents, isExtensionControlledLocation.
  rewrite Hstorage. simpl.
  destruct (storagePath st) as [sp|]; [destruct (liesUnder _ _)|];
    simpl; by rewrite ?Hdisk.
Qed.

Lemma removeDatabaseItem_workspaceFolders (st : State) r it :
  heap st !! r = Some it ->
  workspaceFolders (removeDatabaseItem belongsToSourceArchiveExplorerUri r st) =
    match list_find (fun f => belongsToSourceArchiveExplorerUri it f = true)
                    (workspaceFolders st) with
    | Some (i, _) => delete i (workspaceFolders st)
    | None => workspaceFolders st
    end.
Proof.
  intros Hr. unfold removeDatabaseItem. rewrite Hr. simpl.
  match goal with
  | |- context [deleteContents it ?s] =>
      destruct (deleteContents_frame it s) as (_ & _ & _ & _ & _ & ->)
  end.
  unfold removeWorkspaceFolder. simpl.
  by destruct (list_find _ (workspaceFolders st)) as [[i f]|].
Qed.

Lemma startsWith_spec (s p : string) :
  startsWith s p = true <-> exists rest, s = p +:+ rest.
Proof.
  unfold startsWith. revert s.
  induction p as [|a p IH]; intros s.
  - split; [intros _; by exists s|by destruct s].
  - destruct s as [|b s]; simpl.
    + split; [done|]. intros [rest Hrest]. by rewrite append_String in Hrest.
    + destruct (Ascii.ascii_dec a b) as [->|Hne].
      * rewrite IH. split; intros [rest Hrest]; exists rest.
        -- by rewrite append_String, Hrest.
        -- rewrite append_String in Hrest. by injection Hrest.
      * split; [done|]. intros [rest Hrest].
        rewrite append_String in Hrest. by injection Hrest.
Qed.

(** What lying under a directory comes to. *)
Lemma liesUnder_spec (location dir : string) :
  liesUnder location dir = true <->
  dir ≠ "" /\ exists rest, location = withSeparator dir +:+ rest.
Proof.
  unfold liesUnder. rewrite andb_true_iff, negb_true_iff, startsWith_spec.
  by rewrite bool_decide_eq_false.
Qed.

(** C10. [removeDatabaseItem] deletes the contents of the database on
    disk only when its location lies under the extension's storage
    path, that is, when the storage path is not empty and the location
    is the storage path, a separator and something more: then the
    location and everything below it are gone, and nothing else.  For a
    database stored elsewhere, or without a storage path, the disk is
    left as it was.  Either way the item leaves the list, the shorter
    list is persisted, and the workspace folder of the item is
    removed. *)
Theorem removeDatabaseItem_deletes_only_controlled
    (st : State) (r : ref) (it : DatabaseItem) :
  heap st !! r = Some it ->
  let st' := removeDatabaseItem belongsToSourceArchiveExplorerUri r st in
  let location := fsPath (databaseUri it) in
  (forall sp, storagePath st = Some sp -> liesUnder location sp = true ->
     disk st' = fs_remove location (disk st) /\
     (location ∉ disk st') /\
     (forall p, p ∈ disk st' -> p ∈ disk st) /\
     (forall p, p ∈ disk st -> p ≠ location ->
                startsWith p (location +:+ "/") = false -> p ∈ disk st')) /\
  (forall sp, storagePath st = Some sp -> liesUnder location sp = false ->
     disk st' = disk st) /\
  (storagePath st = None -> disk st' = disk st) /\
  (disk st' <> disk st ->
     exists sp rest,
       storagePath st = Some sp /\ sp ≠ "" /\
       location = withSeparator sp +:+ rest) /\
  databaseItems st' = removeItem r (databaseItems st) /\
  workspaceState st' !! "databaseList" = Some (persistedList st') /\
  persistedList st' = persist (heap st) (removeItem r (databaseItems st)) /\
  (forall i f,
     list_find (fun f => belongsToSourceArchiveExplorerUri it f = true)
               (workspaceFolders st) = Some (i, f) ->
     workspaceFolders st' = delete i (workspaceFolders st)).
Proof.
  intros Hr st' location.
  pose proof (@removeDatabaseItem_disk st r it Hr) as Hdisk.
  fold st' in Hdisk. unfold isExtensionControlledLocation in Hdisk.
  simpl in Hdisk. fold location in Hdisk.
  destruct (@removeDatabaseItem_frame st r it Hr)
    as (Hitems & Hheap & Hstate & _ & _).
  fold st' in Hitems, Hheap, Hstate.
  split; [|split; [|split; [|split; [|repeat split]]]].
  - intros sp Hsp Hunder. rewrite Hdisk, Hsp, Hunder.
    split; [done|]. split; [apply not_elem_of_fs_remove|]. split.
    + intros p Hp. unfold fs_remove in Hp.
      by apply elem_of_filter in Hp as [_ Hp].
    + intros p Hp Hne Hbelow. unfold fs_remove. apply elem_of_filter.
      split; [|done]. intros [?|Hprefix]; [done|].
      by rewrite Hprefix in Hbelow.
  - intros sp Hsp Hunder. by rewrite Hdisk, Hsp, Hunder.
  - intros Hsp. by rewrite Hdisk, Hsp.
  - intros Hchanged. rewrite Hdisk in Hchanged.
    destruct (storagePath st) as [sp|]; [|done].
    destruct (liesUnder location sp) eqn:Hunder; [|done].
    apply liesUnder_spec in Hunder as (Hsp & rest & Hrest).
    by exists sp, rest.
  - exact Hitems.
  - unfold persistedList. rewrite Hstate, Hheap, Hitems.
    apply lookup_insert_eq.
  - unfold persistedList. by rewrite Hheap, Hitems.
  - intros i f Hfind. unfold st'.
    by rewrite (@removeDatabaseItem_workspaceFolders st r it Hr), Hfind.
Qed.

End DatabasesProperties.

Section DatabasesExamples.
Import Js Databases DatabasesExample.

Lemma databaseItems_persisted_and_announced_witness :
  heap (manager (Some "/tmp/dir") []) !! 0%nat = Some mockDb /\
  workspaceState (addDatabaseItem 0%nat (manager (Some "/tmp/dir") []))
    !! "databaseList"
    = Some [ {| uri := "file:///tmp/dir/db";
                persisted_options := MOCK_DB_OPTIONS |} ] /\
  fired (addDatabaseItem 0%nat (manager (Some "/tmp/dir") []))
    = [ {| kind := Add; item := None |} ].
Proof.
  split; [reflexivity|].
  destruct (@databaseItems_persisted_and_announced
              belongsToFirstFolder (manager (Some "/tmp/dir") []) 0%nat mockDb
              "new name")
    as ((_ & Hstored & Hlist & Hfired) & _); [reflexivity|].
  split; [|exact Hfired].
  rewrite Hstored, Hlist. reflexivity.
Defined.

Lemma removeDatabaseItem_deletes_only_controlled_witness :
  heap (manager (Some "hucairz") [0%nat]) !! 0%nat = Some mockDb /\
  liesUnder "/tmp/dir/db" "hucairz" = false /\
  disk (removeDatabaseItem belongsToFirstFolder 0%nat
          (manager (Some "hucairz") [0%nat]))
    = disk (manager (Some "hucairz") [0%nat]) /\
  databaseItems (removeDatabaseItem belongsToFirstFolder 0%nat
                   (manager (Some "hucairz") [0%nat])) = [] /\
  heap (manager (Some "/tmp/dir") [0%nat]) !! 0%nat = Some mockDb /\
  liesUnder "/tmp/dir/db" "/tmp/dir" = true /\
  ("/tmp/dir/db" ∉ disk (removeDatabaseItem belongsToFirstFolder 0%nat
                           (manager (Some "/tmp/dir") [0%nat]))) /\
  ("/tmp/dir/src.zip" ∈ disk (removeDatabaseItem belongsToFirstFolder 0%nat
                                (manager (Some "/tmp/dir") [0%nat]))).
Proof.
  split; [reflexivity|]. split; [reflexivity|].
  destruct (@removeDatabaseItem_deletes_only_controlled
              belongsToFirstFolder (manager (Some "hucairz") [0%nat]) 0%nat
              mockDb)
    as (_ & Hkept & _ & _ & Hitems & _); [reflexivity|].
  split; [by apply (Hkept "hucairz")|]. split; [exact Hitems|].
  split; [reflexivity|]. split; [reflexivity|].
  destruct (@removeDatabaseItem_deletes_only_controlled
              belongsToFirstFolder (manager (Some "/tmp/dir") [0%nat]) 0%nat
              mockDb)
    as (Hdeleted & _); [reflexivity|].
  destruct (Hdeleted "/tmp/dir") as (_ & Hgone & _ & Hothers);
    [reflexivity | reflexivity |].
  split; [exact Hgone|].
  apply Hothers; [|done|reflexivity].
  simpl. set_solver.
Defined.

(** A database in a directory next to the storage directory, whose
    name starts with the same letters, is not under it; neither is any
    database when the storage path is empty. *)
Example sibling_database_is_kept :
  liesUnder "/tmp/dir2/db" "/tmp/dir" = false /\
  disk (removeDatabaseItem belongsToFirstFolder 0%nat
          (managerOfSibling (Some "/tmp/dir")))
    = disk (managerOfSibling (Some "/tmp/dir")) /\
  liesUnder "/tmp/dir2/db" "" = false /\
  disk (removeDatabaseItem belongsToFirstFolder 0%nat
          (managerOfSibling (Some "")))
    = disk (managerOfSibling (Some "")) /\
  databaseItems (removeDatabaseItem belongsToFirstFolder 0%nat
                   (managerOfSibling (Some "/tmp/dir"))) = [].
Proof. repeat split. Qed.

Example remove_controlled_database :
  let st' := removeDatabaseItem belongsToFirstFolder 0%nat
               (manager (Some "/tmp/dir") [0%nat]) in
  databaseItems st' = [] /\
  workspaceState st' !! "databaseList" = Some [] /\
  workspaceFolders st' = [] /\
  disk st' = {[ "/tmp/dir/src.zip" ]} /\
  fired st' = [ {| kind := Remove; item := None |} ].
Proof. repeat split. Qed.

End DatabasesExamples.
